(** * Cynorix authentication gateway: capability resolution, hash exchange
      store, access-token checks and the validation error handler.

    A shallow embedding of
    - [src/userMiddleware.js]  (express-validator custom checks, [AuthValidate]),
    - [src/userRoutes.js]      (the route handlers that resolve capabilities),
    - the user database module (create / read / update of [Users] and
      [UsersHash] documents).

    Firestore collections are finite maps from document id to document,
    [await]ed calls are sequenced in program order, a JavaScript [throw]
    (or rejected promise) is the [Throw] constructor of [result], and
    [new Date().getTime()] is an explicit millisecond clock argument. *)

From Stdlib Require Import ZArith Bool List Ascii String Lia.
From stdpp Require Import gmap strings.

Local Open Scope string_scope.
Local Open Scope Z_scope.

(** ** JavaScript values and control flow used by the sources *)

Module Js.

(** What a JavaScript function can throw here: [new Error(msg)],
    [createError(status, msg)] of http-errors, or the engine's own
    [TypeError]. *)
Inductive error : Type :=
| Error (message : string)
| HttpError (status : Z) (message : string)
| TypeError (message : string).

(** Completion of a call: a returned value or a thrown error. *)
Inductive result (A : Type) : Type :=
| Ok (a : A)
| Throw (e : error).
Arguments Ok {A} a.
Arguments Throw {A} e.

(** [try { body } catch (error) { handler(error) }] *)
Definition try_catch {A} (body : result A) (handler : error -> result A) : result A :=
  match body with
  | Ok a => Ok a
  | Throw e => handler e
  end.

(** Truthiness of a possibly-undefined string ([undefined] and [""] are falsy). *)
Definition truthy_string (v : option string) : bool :=
  match v with
  | None => false
  | Some s => negb (String.eqb s "")
  end.

(** Truthiness of a possibly-undefined boolean. *)
Definition truthy_bool (v : option bool) : bool :=
  match v with
  | Some true => true
  | _ => false
  end.

(** [a === b] on possibly-undefined strings. *)
Definition strict_eq (a b : option string) : bool :=
  match a, b with
  | None, None => true
  | Some x, Some y => String.eqb x y
  | _, _ => false
  end.

(** [s.split(sep)] for a one-character separator: never empty, and
    [split sep ""] is [[""]]. *)
Fixpoint split (sep : ascii) (s : string) : list string :=
  match s with
  | EmptyString => [EmptyString]
  | String c rest =>
      if Ascii.eqb c sep then EmptyString :: split sep rest
      else match split sep rest with
           | [] => [String c EmptyString]
           | w :: ws => String c w :: ws
           end
  end.

(** [s.includes(sep)] for a one-character [sep]. *)
Fixpoint includes (sep : ascii) (s : string) : bool :=
  match s with
  | EmptyString => false
  | String c rest => Ascii.eqb c sep || includes sep rest
  end.

(** [code + param] where [param] may be [undefined]. *)
Definition concat_undefined (s : string) (p : option string) : string :=
  s +:+ match p with Some x => x | None => "undefined" end.

End Js.
Import Js.

(** ** Capability resolution (the three call sites) *)

Module Resolver.

(** The [availableMethods] object.  [SMS], [QR] and [SSID] are set at
    every call site; [Geolocation] and [Smart] are keys that some call
    sites never create ([None] is an absent key). *)
Record availableMethods : Type := {
  SMS : bool;
  QR : bool;
  SSID : bool;
  Geolocation : option bool;
  Smart : option bool
}.

(** [VerifyUpdatePhoneNumber], userMiddleware.js lines 78-88. *)
Definition VerifyUpdatePhoneNumber_methods
    (phoneVerified : bool) (totalDeviceCount mobileDeviceCount : Z) : availableMethods :=
  let desktopDeviceCount := totalDeviceCount - mobileDeviceCount in
  {| SMS := phoneVerified;
     QR := mobileDeviceCount >? 0;
     SSID := (desktopDeviceCount >? 0) && (mobileDeviceCount >? 0);
     Geolocation := Some (mobileDeviceCount >? 0);
     Smart := None |}.

(** [GET /basicInfo], userRoutes.js lines 41-55. *)
Definition basicInfo_methods
    (phoneVerified : bool) (totalDeviceCount mobileDeviceCount : Z) : availableMethods :=
  let desktopDeviceCount := totalDeviceCount - mobileDeviceCount in
  let ssid := (desktopDeviceCount >? 0) && (mobileDeviceCount >? 0) in
  {| SMS := phoneVerified;
     QR := mobileDeviceCount >? 0;
     SSID := ssid;
     Geolocation := Some ((desktopDeviceCount >? 0) && (mobileDeviceCount >? 0));
     Smart := if ssid then Some true else None |}.

(** [POST /getAvailableAuthMethods], userRoutes.js lines 281-299.  The
    object starts as [{SMS: true, QR: false, SSID: false}]. *)
Definition getAvailableAuthMethods_methods
    (totalDeviceCount mobileDeviceCount : Z) : availableMethods :=
  let desktopDeviceCount := totalDeviceCount - mobileDeviceCount in
  let start := {| SMS := true; QR := false; SSID := false;
                  Geolocation := None; Smart := None |} in
  if (desktopDeviceCount >? 0) && (mobileDeviceCount >? 0) then
    {| SMS := SMS start; QR := true; SSID := true;
       Geolocation := Geolocation start; Smart := Smart start |}
  else if mobileDeviceCount >? 0 then
    {| SMS := SMS start; QR := true; SSID := SSID start;
       Geolocation := Geolocation start; Smart := Smart start |}
  else start.

(** A method the client can see as usable: the key exists and is true. *)
Definition offered (v : option bool) : bool := truthy_bool v.

(** The four equalities of the capability contract, for an account with
    [mobile] mobile and [desktop] desktop devices. *)
Definition capability_contract
    (phoneVerified : bool) (mobile desktop : Z) (m : availableMethods) : Prop :=
  SMS m = phoneVerified /\
  QR m = (mobile >? 0) /\
  SSID m = ((mobile >? 0) && (desktop >? 0)) /\
  offered (Smart m) = SSID m.

(** The part of the contract every call site keeps. *)
Definition device_contract (mobile desktop : Z) (m : availableMethods) : Prop :=
  QR m = (mobile >? 0) /\
  SSID m = ((mobile >? 0) && (desktop >? 0)).

End Resolver.

(** ** The user database module: [Users] and [UsersHash] collections *)

Module User.
(** A document of the [Users] collection (the fields the sources read
    or write). *)
Record t : Type := {
  username : string;
  name : string;
  phoneNumber : string;
  phoneVerified : bool;
  secret : string
}.
End User.

Module UserHash.
(** A document of the [UsersHash] collection, keyed by the hash. *)
Record t : Type := {
  userId : string;
  timestamp : Z;
  secret : string
}.
End UserHash.

Module UsersDb.

(** [createUserHash(userId, secret)].  [getHashSha256] is
    [cryptLib.getHashSha256] and [now] is [new Date().getTime()].
    Firestore's [set] creates the document or overwrites it. *)
Definition createUserHash (getHashSha256 : string -> Z -> string) (now : Z)
    (userId secret : string) (UsersHash : gmap string UserHash.t)
  : gmap string UserHash.t :=
  let hashedUserId := getHashSha256 (userId +:+ "||" +:+ secret) 64 in
  let currentTime := now in
  <[hashedUserId := {| UserHash.userId := userId;
                       UserHash.timestamp := currentTime;
                       UserHash.secret := secret |}]> UsersHash.

(** [getUserIdFromHash(hashedUserId)] once [UsersHashRef.doc] has accepted
    [hashedUserId] as a document id (the [get] of line 154 and all that
    follows it), with the collection after the call.  The call from its
    first line, for any string, is [UsersHashRef.getUserIdFromHash]. *)
Definition getUserIdFromHash (now : Z) (hashedUserId : string)
    (UsersHash : gmap string UserHash.t)
  : result string * gmap string UserHash.t :=
  match UsersHash !! hashedUserId with
  | None => (Throw (HttpError 401 "User could not be retrieved."), UsersHash)
  | Some user =>
      let currentTime := now in
      let hashedTime := UserHash.timestamp user in
      if currentTime - hashedTime >? 60000 then
        (Throw (HttpError 410 "Session timeout."), delete hashedUserId UsersHash)
      else
        (Ok (UserHash.userId user), delete hashedUserId UsersHash)
  end.

(** The two errors of [getUserIdFromHash], under the names the
    exchange-store contract gives them. *)
Definition NotFound : Js.error := HttpError 401 "User could not be retrieved.".
Definition Expired : Js.error := HttpError 410 "Session timeout.".

(** The [info] object of [GetUserFromUID]. *)
Record info : Type := {
  info_username : string;
  info_name : string;
  info_phoneNumber : string;
  info_phoneVerified : bool
}.

(** [GetUserFromUID(user_id)] *)
Definition GetUserFromUID (user_id : string) (Users : gmap string User.t) : result info :=
  match Users !! user_id with
  | None => Throw (HttpError 401 "User could not be retrieved from User ID")
  | Some user =>
      Ok {| info_username := User.username user;
            info_name := User.name user;
            info_phoneNumber := User.phoneNumber user;
            info_phoneVerified := User.phoneVerified user |}
  end.

(** [updatePhoneNumber(userId, phoneNumber)].  Firestore's [update]
    rejects when the document does not exist; the [.catch] logs and
    rethrows.  On success the write time (here the clock) is returned. *)
Definition updatePhoneNumber (now : Z) (userId phoneNumber : string)
    (Users : gmap string User.t) : result Z * gmap string User.t :=
  match Users !! userId with
  | None => (Throw (Error "NOT_FOUND: No document to update"), Users)
  | Some user =>
      (Ok now,
       <[userId := {| User.username := User.username user;
                      User.name := User.name user;
                      User.phoneNumber := phoneNumber;
                      User.phoneVerified := false;
                      User.secret := User.secret user |}]> Users)
  end.

End UsersDb.

(** ** Document references of the [UsersHash] collection *)

Module UsersHashRef.

(** [UsersHashRef.doc(id)]: the Firestore SDK throws, before any read or
    write, unless the document path is a non-empty string. *)
Definition doc (id : string) : result string :=
  if String.eqb id "" then
    Throw (Error "Value for argument documentPath is not a valid resource path")
  else Ok id.

(** [getUserIdFromHash(hashedUserId)] from its first line, for any
    string: [UsersHashRef.doc(hashedUserId)] of line 154 first, then the
    lookup.  A throw of [doc] rejects the call with the path error and
    touches nothing. *)
Definition getUserIdFromHash (now : Z) (hashedUserId : string)
    (UsersHash : gmap string UserHash.t)
  : result string * gmap string UserHash.t :=
  match doc hashedUserId with
  | Throw e => (Throw e, UsersHash)
  | Ok id => UsersDb.getUserIdFromHash now id UsersHash
  end.

End UsersHashRef.

(** ** The middleware: custom checks, validation chains, error handler *)

Module Body.
(** [req.body]: the fields the checks read or write. *)
Record t : Type := {
  userId : option string;
  phoneNumber : option string;
  hasAccess : option bool
}.
End Body.

Module Request.
(** The parts of an Express request the middleware touches: the
    [authorization] header, the [accessToken] cookie, the body and the
    [:phoneNumber] route parameter. *)
Record t : Type := {
  authorization : option string;
  accessToken : option string;
  body : Body.t;
  params_phoneNumber : option string
}.
End Request.

Module AccessData.
(** The decoded payload of a JWT signed with [JWT_SECRET_KEY].  The one
    signer in the sources writes [{userId, isAccessToken: true}];
    either key may be missing from a token signed elsewhere with the
    same key. *)
Record t : Type := {
  userId : option string;
  isAccessToken : option bool
}.
End AccessData.

Module Middleware.

(** The [ERROR_CODES] table of [./validators] (its values are not in the
    sources, so it is a parameter of every definition that reads it). *)
Record ERROR_CODES : Type := {
  MISSING_HEADER : string;
  MISSING_BEARER : string;
  INVALID_FIREBASE_TOKEN : string;
  DEVICE_EXISTS : string;
  PHONE_NUMBER_NOT_VERIFIED : string;
  MISSING_PARAMATER : string;
  INVALID_ACCESS_TOKEN : string
}.

(** Modelled from the spec: the values of [ERROR_CODES], which
    [./validators] defines outside the sources; the spec's table names
    the codes, and a parameter message is the code, a colon and the
    field name. *)
Definition spec_ERROR_CODES : ERROR_CODES := {|
  MISSING_HEADER := "MissingHeader";
  MISSING_BEARER := "MissingBearer";
  INVALID_FIREBASE_TOKEN := "InvalidIdentityToken";
  DEVICE_EXISTS := "DeviceExists";
  PHONE_NUMBER_NOT_VERIFIED := "PhoneNumberNotVerified";
  MISSING_PARAMATER := "MissingParameter:";
  INVALID_ACCESS_TOKEN := "InvalidAccessToken"
|}.

(** What [ValidateIDToken] resolves to: a falsy [uid] (here [None]) when
    the identity provider rejects the token. *)
Record IdToken : Type := {
  uid : option string;
  email_verified : bool
}.

(** What [jwt.verify(token, JWT_SECRET_KEY)] finds: the signature does
    not validate (which covers a malformed or missing token), the token
    is past its expiry, or the payload is returned. *)
Inductive jwt_verdict : Type :=
| SignatureInvalid
| TokenExpired
| Verified (accessData : AccessData.t).

(** The collaborators of the checks: the code table, the identity
    provider, the JWT library under the process-wide key, the [Users]
    collection and the device store. *)
Record Env : Type := {
  codes : ERROR_CODES;
  ValidateIDToken : option string -> IdToken;
  jwt : option string -> jwt_verdict;
  Users : gmap string User.t;
  Device : Type;
  getAllDevices : string -> list Device;
  getAllMobileDevices : string -> list Device
}.

(** [jwt.verify]: returns the payload or throws. *)
Definition jwt_verify (env : Env) (token : option string) : result AccessData.t :=
  match jwt env token with
  | SignatureInvalid => Throw (Error "invalid signature")
  | TokenExpired => Throw (Error "jwt expired")
  | Verified accessData => Ok accessData
  end.

(** [req.body.userId = v] *)
Definition set_userId (req : Request.t) (v : option string) : Request.t :=
  {| Request.authorization := Request.authorization req;
     Request.accessToken := Request.accessToken req;
     Request.body := {| Body.userId := v;
                        Body.phoneNumber := Body.phoneNumber (Request.body req);
                        Body.hasAccess := Body.hasAccess (Request.body req) |};
     Request.params_phoneNumber := Request.params_phoneNumber req |}.

(** [req.body.hasAccess = v] *)
Definition set_hasAccess (req : Request.t) (v : bool) : Request.t :=
  {| Request.authorization := Request.authorization req;
     Request.accessToken := Request.accessToken req;
     Request.body := {| Body.userId := Body.userId (Request.body req);
                        Body.phoneNumber := Body.phoneNumber (Request.body req);
                        Body.hasAccess := Some v |};
     Request.params_phoneNumber := Request.params_phoneNumber req |}.

(** [VerifyFirebaseTokenOnlyUID(value, {req})] *)
Definition VerifyFirebaseTokenOnlyUID (env : Env) (value : string) (req : Request.t)
  : result bool * Request.t :=
  let token := nth_error (split " " value) 1 in
  let r := ValidateIDToken env token in
  if negb (truthy_string (uid r)) then
    (Throw (Error (INVALID_FIREBASE_TOKEN (codes env))), req)
  else (Ok true, set_userId req (uid r)).

(** [VerifyFirebaseToken(value, {req})] *)
Definition VerifyFirebaseToken (env : Env) (value : string) (req : Request.t)
  : result bool * Request.t :=
  let token := nth_error (split " " value) 1 in
  let r := ValidateIDToken env token in
  if negb (truthy_string (uid r)) || negb (email_verified r) then
    (Throw (Error (INVALID_FIREBASE_TOKEN (codes env))), req)
  else (Ok true, set_userId req (uid r)).

(** [VerifyAccessToken(value, {req})]: the request is not changed.  The
    [throw] inside the [try] block is caught by its own [catch]. *)
Definition VerifyAccessToken (env : Env) (req : Request.t) : result bool :=
  let accessToken := Request.accessToken req in
  match
    try_catch
      (match jwt_verify env accessToken with
       | Throw e => Throw e
       | Ok accessData =>
           if negb (strict_eq (AccessData.userId accessData)
                              (Body.userId (Request.body req)))
              || negb (truthy_bool (AccessData.isAccessToken accessData))
           then Throw (Error (INVALID_ACCESS_TOKEN (codes env)))
           else Ok tt
       end)
      (fun error => Throw (Error (INVALID_ACCESS_TOKEN (codes env))))
  with
  | Throw e => Throw e
  | Ok _ => Ok true
  end.

(** The payload that line 57 of [VerifyAccessToken] lets through: it is
    for the expected user and carries a true marker. *)
Definition accepted (accessData : AccessData.t) (expected : option string) : Prop :=
  AccessData.userId accessData = expected
  /\ AccessData.isAccessToken accessData = Some true.

(** [CheckAccessTokenMiddleware(req, res, next)]: the request handed to
    [next()].  [hasAccess] starts as [true] and each failure path
    assigns [false]. *)
Definition CheckAccessTokenMiddleware (env : Env) (req : Request.t) : Request.t :=
  let req := set_hasAccess req true in
  match jwt_verify env (Request.accessToken req) with
  | Throw _ => set_hasAccess req false
  | Ok accessData =>
      if negb (strict_eq (AccessData.userId accessData) (Body.userId (Request.body req)))
         || negb (truthy_bool (AccessData.isAccessToken accessData))
      then set_hasAccess req false
      else req
  end.

(** [VerifyUpdatePhoneNumber(value, {req})].  [UsersRef.doc(userId)]
    throws unless [userId] is a non-empty string; a field of a missing
    document reads as [undefined], which line 91 treats as false. *)
Definition VerifyUpdatePhoneNumber (env : Env) (req : Request.t) : result bool :=
  match Body.userId (Request.body req) with
  | None => Throw (Error "Value for argument documentPath is not a valid resource path")
  | Some userId =>
      if String.eqb userId "" then
        Throw (Error "Value for argument documentPath is not a valid resource path")
      else
        let phoneVerified :=
          match Users env !! userId with
          | Some user => User.phoneVerified user
          | None => false
          end in
        let totalDeviceCount := Z.of_nat (length (getAllDevices env userId)) in
        let mobileDeviceCount := Z.of_nat (length (getAllMobileDevices env userId)) in
        let availableMethods :=
          Resolver.VerifyUpdatePhoneNumber_methods
            phoneVerified totalDeviceCount mobileDeviceCount in
        if (Resolver.SMS availableMethods || Resolver.QR availableMethods
            || Resolver.SSID availableMethods
            || truthy_bool (Resolver.Geolocation availableMethods))
           && truthy_string (Body.phoneNumber (Request.body req))
        then VerifyAccessToken env req
        else Ok true
  end.

(** What [AuthValidate] does with the response: hands over to [next()],
    sends a status and a JSON body, or dies with an exception (the
    promise of the async handler is rejected and nothing is sent). *)
Inductive json_body : Type :=
| ErrorBody (error : string)
| SuccessErrorBody (success : bool) (error : string).

Inductive handled : Type :=
| Next
| Respond (status : Z) (json : json_body)
| Rejected (e : Js.error).

(** [message.split(":")[0]] and [message.split(":")[1]] *)
Definition errorCode_of (message : string) : string :=
  nth 0 (split ":" message) "".

Definition param_of (message : string) : option string :=
  nth_error (split ":" message) 1.

(** [AuthValidate(req, res, next)] on [validationResult(req).array()],
    the messages recorded so far.  The [switch] compares with [===],
    case by case in source order; the [DEVICE_EXISTS] case calls
    [res.staus], which a response object does not have. *)
Definition AuthValidate (EC : ERROR_CODES) (errors : list string) : handled :=
  match errors with
  | [] => Next
  | message :: _ =>
      let errorCode := errorCode_of message in
      let param := param_of message in
      if String.eqb errorCode (MISSING_HEADER EC) then
        Respond 403 (ErrorBody errorCode)
      else if String.eqb errorCode (MISSING_BEARER EC) then
        Respond 403 (ErrorBody errorCode)
      else if String.eqb errorCode (INVALID_FIREBASE_TOKEN EC) then
        Respond 400 (ErrorBody errorCode)
      else if String.eqb errorCode (DEVICE_EXISTS EC) then
        Rejected (TypeError "res.staus is not a function")
      else if String.eqb errorCode (PHONE_NUMBER_NOT_VERIFIED EC) then
        Respond 409 (ErrorBody errorCode)
      else if String.eqb errorCode (errorCode_of (MISSING_PARAMATER EC)) then
        Respond 412 (SuccessErrorBody false (concat_undefined errorCode param))
      else if String.eqb errorCode (INVALID_ACCESS_TOKEN EC) then
        Respond 417 (SuccessErrorBody false errorCode)
      else
        Respond 400 (ErrorBody errorCode)
  end.

(** *** Validation chains as Express middleware

    A route is registered as [router.METHOD(path, Validator(),
    AuthValidate, handler)], where [Validator()] is an array of
    express-validator chains.  Express calls the array's elements in
    order; an express-validator chain used as middleware runs its
    validators against the request (the custom ones may write to it),
    records the messages of those that fail on the request, and calls
    [next()] whether or not it recorded one.  [validationResult(req)]
    then lists the recorded messages in the order the chains ran. *)
Definition ValidationChain (Req : Type) : Type := Req -> list string * Req.

Definition run_chain {Req : Type} (st : list string * Req) (chain : ValidationChain Req)
  : list string * Req :=
  let '(found, req') := chain (snd st) in ((fst st ++ found)%list, req').

Definition run_chains {Req : Type} (chains : list (ValidationChain Req)) (req : Req)
  : list string * Req :=
  fold_left run_chain chains ([], req).

(** The admission pipeline of a route up to its handler. *)
Definition gateway {Req : Type} (EC : ERROR_CODES)
    (chains : list (ValidationChain Req)) (req : Req) : handled * Req :=
  let '(errors, req') := run_chains chains req in
  (AuthValidate EC errors, req').

(** The message express-validator records for a custom validator that
    throws: the message of the thrown error. *)
Definition message_of (e : Js.error) : string :=
  match e with
  | Error m => m
  | HttpError _ m => m
  | TypeError m => m
  end.

(** Modelled from the spec: [BaseAuthorizationHeaderValidator] of
    [./validators], which is not in the sources.  It requires a bearer
    header of the form ["Bearer <token>"], fails with [MISSING_HEADER]
    when there is no header and with [MISSING_BEARER] when the scheme is
    malformed, and stops its chain at the failure. *)
Definition BaseAuthorizationHeaderValidator (EC : ERROR_CODES) (req : Request.t)
  : result string :=
  match Request.authorization req with
  | None => Throw (Error (MISSING_HEADER EC))
  | Some value =>
      if String.prefix "Bearer " value then Ok value
      else Throw (Error (MISSING_BEARER EC))
  end.

(** [BaseAuthorizationHeaderValidator().custom(check)] *)
Definition custom (EC : ERROR_CODES)
    (check : string -> Request.t -> result bool * Request.t)
  : ValidationChain Request.t :=
  fun req =>
    match BaseAuthorizationHeaderValidator EC req with
    | Throw e => ([message_of e], req)
    | Ok value =>
        match check value req with
        | (Ok _, req') => ([], req')
        | (Throw e, req') => ([message_of e], req')
        end
    end.

Definition UserBasicLoginValidator (env : Env) : list (ValidationChain Request.t) :=
  [custom (codes env) (VerifyFirebaseTokenOnlyUID env)].

Definition CheckPhoneNumberChangeValidator (env : Env) : list (ValidationChain Request.t) :=
  [custom (codes env) (VerifyFirebaseToken env);
   custom (codes env) (fun value req => (VerifyAccessToken env req, req))].

Definition DeleteValidator (env : Env) : list (ValidationChain Request.t) :=
  [custom (codes env) (VerifyFirebaseToken env);
   custom (codes env) (fun value req => (VerifyAccessToken env req, req))].

(** The database call of the [POST /updatePhone/:phoneNumber] handler:
    [updatePhoneNumber(req.body.userId, req.params.phoneNumber)]. *)
Definition updatePhone (now : Z) (req : Request.t) (Users : gmap string User.t)
  : result Z * gmap string User.t :=
  match Body.userId (Request.body req), Request.params_phoneNumber req with
  | Some userId, Some phoneNumber => UsersDb.updatePhoneNumber now userId phoneNumber Users
  | _, _ => (Throw (Error "Value for argument documentPath is not a valid resource path"), Users)
  end.

(** Test doubles for a chain [[A; B; C]]: the request is a pair of
    counters; [A] records a failure, [B] and [C] pass and each bumps
    its own counter. *)
Definition failing_check (message : string) : ValidationChain (nat * nat) :=
  fun req => ([message], req).

Definition counting_check_B : ValidationChain (nat * nat) :=
  fun req => ([], (S (fst req), snd req)).

Definition counting_check_C : ValidationChain (nat * nat) :=
  fun req => ([], (fst req, S (snd req))).

End Middleware.

(** ** Concrete accounts, collaborators and requests

    The inputs at which the model is evaluated below. *)

Module Examples.
Import Middleware.

(** User ["u1"]: phone number on file and verified. *)
Definition ann : User.t :=
  {| User.username := "ann"; User.name := "Ann";
     User.phoneNumber := "+15555550100";
     User.phoneVerified := true; User.secret := "s" |}.

Definition accounts : gmap string User.t := {[ "u1" := ann ]}.

(** The entry that [createUserHash "u1" "secretA"] wrote at clock 0. *)
Definition handoff : UserHash.t :=
  {| UserHash.userId := "u1"; UserHash.timestamp := 0; UserHash.secret := "secretA" |}.

(** An identity provider that accepts the bearer token ["good"] as user
    ["u1"] with a verified email and rejects every other token. *)
Definition provider (token : option string) : IdToken :=
  match token with
  | Some t =>
      if String.eqb t "good"
      then {| uid := Some "u1"; email_verified := true |}
      else {| uid := None; email_verified := false |}
  | None => {| uid := None; email_verified := false |}
  end.

(** A key under which ["access-u1"] is a live access token for ["u1"],
    ["stale-u1"] an expired one, and nothing else verifies. *)
Definition keyring (token : option string) : jwt_verdict :=
  match token with
  | Some t =>
      if String.eqb t "access-u1" then
        Verified {| AccessData.userId := Some "u1";
                    AccessData.isAccessToken := Some true |}
      else if String.eqb t "stale-u1" then TokenExpired
      else SignatureInvalid
  | None => SignatureInvalid
  end.

(** ["u1"] has one mobile and one desktop device. *)
Definition env : Env :=
  {| codes := spec_ERROR_CODES;
     ValidateIDToken := provider;
     jwt := keyring;
     Users := accounts;
     Device := bool;
     getAllDevices := fun _ => [true; false];
     getAllMobileDevices := fun _ => [true] |}.

(** [POST /updatePhone/+15555550199] by ["u1"], after the identity check
    has written [req.body.userId]: a valid bearer token, no
    [accessToken] cookie, and a body without a [phoneNumber] field. *)
Definition updatePhone_request : Request.t :=
  {| Request.authorization := Some "Bearer good";
     Request.accessToken := None;
     Request.body := {| Body.userId := Some "u1";
                        Body.phoneNumber := None;
                        Body.hasAccess := None |};
     Request.params_phoneNumber := Some "+15555550199" |}.

(** [GET /checkPhoneNumberChange/...] with a bearer token the provider
    rejects and no cookie. *)
Definition rejected_bearer_request : Request.t :=
  {| Request.authorization := Some "Bearer garbage";
     Request.accessToken := None;
     Request.body := {| Body.userId := None;
                        Body.phoneNumber := None;
                        Body.hasAccess := None |};
     Request.params_phoneNumber := Some "+15555550199" |}.

End Examples.

(** ** Registration *)

Module Registration.

(** The [user] object handed to [createUser] ([req.body] of
    [/registerStepOne] once the identity check has written [userId]). *)
Record user : Type := {
  userId : string;
  username : string;
  name : string;
  phoneNumber : string
}.

(** [getUsernameUnique(username)]: the query
    [UsersRef.where("username", "==", username)] and the test on its
    size. *)
Definition getUsernameUnique (username : string) (Users : gmap string User.t) : bool :=
  let result := filter (fun kv => User.username (snd kv) = username) Users in
  if Z.of_nat (size result) >? 0 then false else true.

(** [createUser(user)].  [secret] is
    [crypto.randomBytes(32).toString("base64")].  Firestore's [set]
    creates the document or overwrites it.  The [regDate] server
    timestamp, which nothing in the sources reads, is not a field of
    [User.t]. *)
Definition createUser (secret : string) (user : user) (Users : gmap string User.t)
  : result unit * gmap string User.t :=
  let usernameCheck := getUsernameUnique (username user) Users in
  if negb usernameCheck then
    (Throw (HttpError 409 "Username Already Exists"), Users)
  else
    (Ok tt,
     <[userId user := {| User.username := username user;
                         User.name := name user;
                         User.phoneNumber := phoneNumber user;
                         User.phoneVerified := false;
                         User.secret := secret |}]> Users).

(** [GetUserSecretFromUID(user_id)] *)
Definition GetUserSecretFromUID (user_id : string) (Users : gmap string User.t)
  : result string :=
  match Users !! user_id with
  | None => Throw (HttpError 401 "User secret could not be retrieved from User ID")
  | Some user => Ok (User.secret user)
  end.

(** No two accounts carry the same username. *)
Definition usernames_unique (Users : gmap string User.t) : Prop :=
  forall id1 id2 user1 user2,
    Users !! id1 = Some user1 ->
    Users !! id2 = Some user2 ->
    User.username user1 = User.username user2 ->
    id1 = id2.

(** A second account, for the examples. *)
Definition bob : User.t :=
  {| User.username := "bob"; User.name := "Bob";
     User.phoneNumber := "+15555550111";
     User.phoneVerified := false; User.secret := "t" |}.

End Registration.

(** ** Route handlers *)

Module Routes.
Import Middleware.

(** [s.substring(indexStart, indexEnd)] on natural-number indices: the
    indices are clamped to the length and swapped when out of order. *)
Definition substring (s : string) (indexStart indexEnd : nat) : string :=
  String.substring (Nat.min indexStart indexEnd)
                   (Nat.max indexStart indexEnd - Nat.min indexStart indexEnd) s.

(** The blurred phone number of [GET /basicInfo] (userRoutes.js line 38). *)
Definition blur (phoneNumber : string) : string :=
  substring phoneNumber 0 2 +:+ "(***) ***-" +:+ substring phoneNumber 8 12.

(** [error.status] of a caught error: only http-errors carry one. *)
Definition status_of (e : Js.error) : option Z :=
  match e with
  | HttpError status _ => Some status
  | _ => None
  end.

(** What a handler sends: [res.status(200).json(body)], or
    [res.status(error.status).json({error: error.message})] for a caught
    error, whose status may be [undefined]. *)
Inductive response (A : Type) : Type :=
| Sent200 (body : A)
| SentError (status : option Z) (error : string).
Arguments Sent200 {A} body.
Arguments SentError {A} status error.

(** [UsersDb.read.GetUserFromUID(req.body.userId)]: [UsersRef.doc] throws
    unless its argument is a non-empty string. *)
Definition GetUserFromUID_of (userId : option string) (Users : gmap string User.t)
  : result UsersDb.info :=
  match userId with
  | None => Throw (Error "Value for argument documentPath is not a valid resource path")
  | Some user_id =>
      if String.eqb user_id "" then
        Throw (Error "Value for argument documentPath is not a valid resource path")
      else UsersDb.GetUserFromUID user_id Users
  end.

(** The JSON body of [GET /basicInfo]. *)
Record basicInfo_body : Type := {
  bi_userId : option string;
  bi_username : string;
  bi_name : string;
  bi_phoneNumber : string;
  bi_phoneVerified : bool;
  bi_availableAuthMethods : Resolver.availableMethods;
  bi_hasAccess : option bool
}.

(** The handler of [GET /basicInfo] (userRoutes.js lines 31-68). *)
Definition basicInfo (env : Env) (req : Request.t) : response basicInfo_body :=
  let userId := Body.userId (Request.body req) in
  match GetUserFromUID_of userId (Users env) with
  | Throw error => SentError (status_of error) (message_of error)
  | Ok basicInfo =>
      let phoneNumber := UsersDb.info_phoneNumber basicInfo in
      let blurred := blur phoneNumber in
      let user_id := match userId with Some u => u | None => "" end in
      let totalDeviceCount := Z.of_nat (length (getAllDevices env user_id)) in
      let mobileDeviceCount := Z.of_nat (length (getAllMobileDevices env user_id)) in
      Sent200 {| bi_userId := userId;
                 bi_username := UsersDb.info_username basicInfo;
                 bi_name := UsersDb.info_name basicInfo;
                 bi_phoneNumber := blurred;
                 bi_phoneVerified := UsersDb.info_phoneVerified basicInfo;
                 bi_availableAuthMethods :=
                   Resolver.basicInfo_methods (UsersDb.info_phoneVerified basicInfo)
                     totalDeviceCount mobileDeviceCount;
                 bi_hasAccess := Body.hasAccess (Request.body req) |}
  end.

(** The handler of [GET /checkPhoneNumberChange/:phoneNumber]
    (userRoutes.js lines 119-132); the body is [{same: isSame}]. *)
Definition checkPhoneNumberChange (env : Env) (req : Request.t) : response bool :=
  if negb (truthy_string (Request.params_phoneNumber req)) then
    SentError (Some 500) "Phone number not provided."
  else
    match GetUserFromUID_of (Body.userId (Request.body req)) (Users env) with
    | Throw error => SentError (status_of error) (message_of error)
    | Ok basicInfo =>
        let isSame := strict_eq (Request.params_phoneNumber req)
                                (Some (UsersDb.info_phoneNumber basicInfo)) in
        Sent200 isSame
    end.

(** The options of [res.cookie('accessToken', ...)] in
    [POST /storeAccessToken]. *)
Record cookie : Type := {
  cookie_name : string;
  cookie_value : string;
  httpOnly : bool;
  secure : bool;
  sameSite : string;
  maxAge : string
}.

(** What [POST /storeAccessToken] sends: the cookie with the 200
    message, or a caught error with its status ([500] when it has none). *)
Inductive stored : Type :=
| Stored (c : cookie) (message : string)
| NotStored (status : Z) (error : string).

(** The handler of [POST /storeAccessToken] (userRoutes.js lines
    163-207).  [successJWT] is [req.body.successJWT]; [sign payload
    expiresIn] is [jwt.sign(payload, JWT_SECRET_KEY, {expiresIn})]. *)
Definition storeAccessToken (sign : AccessData.t -> Z -> string) (env : Env)
    (successJWT : option string) (req : Request.t) : stored :=
  let outcome : result cookie :=
    match
      try_catch
        (match jwt_verify env successJWT with
         | Throw e => Throw e
         | Ok payload => Ok (AccessData.userId payload)
         end)
        (fun error => Throw (HttpError 406 "Success JWT Invalid."))
    with
    | Throw e => Throw e
    | Ok userId =>
        if negb (strict_eq userId (Body.userId (Request.body req))) then
          Throw (HttpError 401 "Users do not match.")
        else
          let accessToken :=
            sign {| AccessData.userId := userId;
                    AccessData.isAccessToken := Some true |} 6000 in
          Ok {| cookie_name := "accessToken"; cookie_value := accessToken;
                httpOnly := true; secure := true; sameSite := "None";
                maxAge := "100000000" |}
    end in
  match outcome with
  | Ok c => Stored c "Successfully stored access token."
  | Throw error =>
      NotStored (match status_of error with Some status => status | None => 500 end)
                (message_of error)
  end.

(** The request a browser sends next: the same request carrying the
    cookie. *)
Definition with_cookie (req : Request.t) (c : cookie) : Request.t :=
  {| Request.authorization := Request.authorization req;
     Request.accessToken := Some (cookie_value c);
     Request.body := Request.body req;
     Request.params_phoneNumber := Request.params_phoneNumber req |}.

(** [BaseAuthorizationHeaderValidator().custom(check)] for whatever the
    header validator [base] accepts: [Middleware.custom] is the instance
    at the header validator modelled there. *)
Definition custom_with (base : Request.t -> result string)
    (check : string -> Request.t -> result bool * Request.t)
  : ValidationChain Request.t :=
  fun req =>
    match base req with
    | Throw e => ([message_of e], req)
    | Ok value =>
        match check value req with
        | (Ok _, req') => ([], req')
        | (Throw e, req') => ([message_of e], req')
        end
    end.

(** The array shared by [CheckPhoneNumberChangeValidator] and
    [DeleteValidator], over any header validator. *)
Definition identity_then_access (base : Request.t -> result string) (env : Env)
  : list (ValidationChain Request.t) :=
  [custom_with base (VerifyFirebaseToken env);
   custom_with base (fun value req => (VerifyAccessToken env req, req))].

(** A signer for the example key: every access token it issues is the
    live token of ["u1"]. *)
Definition example_sign (payload : AccessData.t) (expiresIn : Z) : string :=
  "access-u1".

(** A request of ["u1"] after the identity check, without a cookie. *)
Definition identified_request : Request.t :=
  {| Request.authorization := Some "Bearer good";
     Request.accessToken := None;
     Request.body := {| Body.userId := Some "u1";
                        Body.phoneNumber := None;
                        Body.hasAccess := None |};
     Request.params_phoneNumber := None |}.


(** A request as it arrives: a good bearer token, the live access token
    in the cookie, and a body that claims another user id. *)
Definition arriving_request : Request.t :=
  {| Request.authorization := Some "Bearer good";
     Request.accessToken := Some "access-u1";
     Request.body := {| Body.userId := Some "u2";
                        Body.phoneNumber := None;
                        Body.hasAccess := Some true |};
     Request.params_phoneNumber := None |}.

End Routes.

(** * Properties *)

(** ** JavaScript helpers *)

Module JsFacts.

Lemma strict_eq_spec a b : strict_eq a b = true <-> a = b.
Proof.
  destruct a as [x|], b as [y|]; simpl; try (split; congruence).
  rewrite String.eqb_eq. split; congruence.
Qed.

Lemma strict_eq_false a b : strict_eq a b = false <-> a <> b.
Proof.
  rewrite <- strict_eq_spec. destruct (strict_eq a b); split; congruence.
Qed.

Lemma truthy_bool_false v : truthy_bool v = false <-> v = None \/ v = Some false.
Proof.
  destruct v as [[|]|]; simpl; split; intros H; try congruence; auto.
  destruct H; congruence.
Qed.

Lemma split_nonempty sep s : split sep s <> [].
Proof.
  destruct s as [|c rest]; simpl; [discriminate|].
  destruct (Ascii.eqb c sep); [discriminate|].
  destruct (split sep rest); discriminate.
Qed.

(** A string without the separator is the single piece of its split. *)
Lemma split_no_separator sep s : includes sep s = false -> split sep s = [s].
Proof.
  induction s as [|c rest IH]; simpl; [reflexivity|].
  intros H. apply orb_false_iff in H as [Hc Hrest].
  rewrite Hc, (IH Hrest). reflexivity.
Qed.

End JsFacts.

(** ** Capability resolution *)

Module ResolverSpec.
Import Resolver.

Lemma gtb_pos_and (mobile desktop : Z) :
  ((mobile + desktop - mobile >? 0) && (mobile >? 0)) = ((mobile >? 0) && (desktop >? 0)).
Proof.
  replace (mobile + desktop - mobile) with desktop by lia.
  apply andb_comm.
Qed.

(** [GET /basicInfo] keeps all four equalities. *)
Lemma basicInfo_contract (phoneVerified : bool) (mobile desktop : Z) :
  capability_contract phoneVerified mobile desktop
    (basicInfo_methods phoneVerified (mobile + desktop) mobile).
Proof.
  unfold capability_contract, basicInfo_methods; simpl.
  rewrite gtb_pos_and.
  repeat split.
  destruct ((mobile >? 0) && (desktop >? 0)); reflexivity.
Qed.

(** [GET /basicInfo] creates the [Smart] key, as [true], when [SSID] is
    true, and does not create it otherwise. *)
Lemma basicInfo_Smart_key (phoneVerified : bool) (total mobile : Z) :
  Smart (basicInfo_methods phoneVerified total mobile)
  = if SSID (basicInfo_methods phoneVerified total mobile) then Some true else None.
Proof. reflexivity. Qed.

(** Both other call sites compute [QR] and [SSID] the same way. *)
Lemma VerifyUpdatePhoneNumber_devices (phoneVerified : bool) (mobile desktop : Z) :
  device_contract mobile desktop
    (VerifyUpdatePhoneNumber_methods phoneVerified (mobile + desktop) mobile).
Proof.
  unfold device_contract, VerifyUpdatePhoneNumber_methods; simpl.
  rewrite gtb_pos_and. split; reflexivity.
Qed.

Lemma getAvailableAuthMethods_devices (mobile desktop : Z) :
  device_contract mobile desktop
    (getAvailableAuthMethods_methods (mobile + desktop) mobile).
Proof.
  unfold device_contract, getAvailableAuthMethods_methods.
  rewrite gtb_pos_and.
  destruct (mobile >? 0), (desktop >? 0); simpl; split; reflexivity.
Qed.

(** [POST /getAvailableAuthMethods] never reads the account: its [SMS]
    is the constant of its initial object, and it creates neither a
    [Geolocation] nor a [Smart] key. *)
Lemma getAvailableAuthMethods_constant_keys (total mobile : Z) :
  let m := getAvailableAuthMethods_methods total mobile in
  SMS m = true /\ Geolocation m = None /\ Smart m = None.
Proof.
  unfold getAvailableAuthMethods_methods.
  destruct ((total - mobile >? 0) && (mobile >? 0)); [|destruct (mobile >? 0)];
    simpl; repeat split.
Qed.

(** C1 (as amended).  For every phoneVerified flag and every pair of
    device counts (mobile, desktop): [GET /basicInfo] yields
    SMS = phoneVerified, QR = (mobile > 0), SSID = (mobile > 0 and
    desktop > 0), and a Smart key, with the value true, exactly when
    SSID is true (no Smart key otherwise);
    [VerifyUpdatePhoneNumber] yields the same SMS, QR and SSID and never
    a Smart key; [POST /getAvailableAuthMethods] yields the same QR and
    SSID and never a Smart key. *)
Theorem call_site_capabilities (phoneVerified : bool) (mobile desktop : Z) :
  (capability_contract phoneVerified mobile desktop
     (basicInfo_methods phoneVerified (mobile + desktop) mobile)
   /\ Smart (basicInfo_methods phoneVerified (mobile + desktop) mobile)
      = if SSID (basicInfo_methods phoneVerified (mobile + desktop) mobile)
        then Some true else None)
  /\ (SMS (VerifyUpdatePhoneNumber_methods phoneVerified (mobile + desktop) mobile)
        = phoneVerified
      /\ device_contract mobile desktop
           (VerifyUpdatePhoneNumber_methods phoneVerified (mobile + desktop) mobile)
      /\ Smart (VerifyUpdatePhoneNumber_methods phoneVerified (mobile + desktop) mobile)
           = None)
  /\ (device_contract mobile desktop
        (getAvailableAuthMethods_methods (mobile + desktop) mobile)
      /\ Smart (getAvailableAuthMethods_methods (mobile + desktop) mobile) = None).
Proof.
  split; [split; [apply basicInfo_contract | apply basicInfo_Smart_key]|].
  split.
  - split; [reflexivity|].
    split; [apply VerifyUpdatePhoneNumber_devices | reflexivity].
  - split; [apply getAvailableAuthMethods_devices|].
    apply (getAvailableAuthMethods_constant_keys (mobile + desktop) mobile).
Qed.

(** C1, counterexample.  With one mobile and one desktop device the
    object built in [VerifyUpdatePhoneNumber] has SSID true and no Smart
    key; and for an account whose phone is not verified
    [POST /getAvailableAuthMethods] still answers SMS true.  At neither
    call site do the four equalities all hold. *)
Lemma call_sites_break_contract :
  (SSID (VerifyUpdatePhoneNumber_methods true 2 1) = true
   /\ Smart (VerifyUpdatePhoneNumber_methods true 2 1) = None
   /\ (capability_contract true 1 1 (VerifyUpdatePhoneNumber_methods true 2 1) -> False))
  /\ (SMS (getAvailableAuthMethods_methods 0 0) = true
      /\ (capability_contract false 0 0 (getAvailableAuthMethods_methods 0 0) -> False)).
Proof.
  split.
  - split; [reflexivity|]. split; [reflexivity|].
    unfold capability_contract; simpl. intros (_ & _ & _ & H). discriminate H.
  - split; [reflexivity|].
    unfold capability_contract; simpl. intros (H & _). discriminate H.
Qed.

(** The two call sites that create a [Geolocation] key disagree on it:
    the middleware asks for a mobile device, the route for a mobile and
    a desktop device. *)
Lemma Geolocation_VerifyUpdatePhoneNumber (phoneVerified : bool) (mobile desktop : Z) :
  Geolocation (VerifyUpdatePhoneNumber_methods phoneVerified (mobile + desktop) mobile)
  = Some (mobile >? 0).
Proof. reflexivity. Qed.

Lemma Geolocation_basicInfo (phoneVerified : bool) (mobile desktop : Z) :
  Geolocation (basicInfo_methods phoneVerified (mobile + desktop) mobile)
  = Some ((mobile >? 0) && (desktop >? 0)).
Proof.
  unfold basicInfo_methods; simpl. rewrite gtb_pos_and. reflexivity.
Qed.

(** C2.  Two mobile devices, no desktop device, phone verified:
    [VerifyUpdatePhoneNumber] resolves Geolocation to true (and creates
    no Smart key), while [GET /basicInfo] resolves Geolocation to false
    for the same account. *)
Theorem basicInfo_Geolocation_needs_desktop :
  VerifyUpdatePhoneNumber_methods true (2 + 0) 2
  = {| SMS := true; QR := true; SSID := false;
       Geolocation := Some true; Smart := None |}
  /\ basicInfo_methods true (2 + 0) 2
     = {| SMS := true; QR := true; SSID := false;
          Geolocation := Some false; Smart := None |}.
Proof. split; reflexivity. Qed.

End ResolverSpec.

(** ** The hash exchange store and the phone-number update *)

Module UsersDbSpec.
Import UsersDb.

Section Exchange.
Variable getHashSha256 : string -> Z -> string.

(** The three paths of [getUserIdFromHash]. *)
Lemma getUserIdFromHash_absent now h (UsersHash : gmap string UserHash.t) :
  UsersHash !! h = None ->
  getUserIdFromHash now h UsersHash = (Throw NotFound, UsersHash).
Proof. intros H. unfold getUserIdFromHash. rewrite H. reflexivity. Qed.

Lemma getUserIdFromHash_expired now h entry (UsersHash : gmap string UserHash.t) :
  UsersHash !! h = Some entry ->
  now - UserHash.timestamp entry > 60000 ->
  getUserIdFromHash now h UsersHash = (Throw Expired, delete h UsersHash).
Proof.
  intros H Hage. unfold getUserIdFromHash. rewrite H.
  destruct (Z.gtb_spec (now - UserHash.timestamp entry) 60000); [reflexivity | lia].
Qed.

Lemma getUserIdFromHash_live now h entry (UsersHash : gmap string UserHash.t) :
  UsersHash !! h = Some entry ->
  now - UserHash.timestamp entry <= 60000 ->
  getUserIdFromHash now h UsersHash = (Ok (UserHash.userId entry), delete h UsersHash).
Proof.
  intros H Hage. unfold getUserIdFromHash. rewrite H.
  destruct (Z.gtb_spec (now - UserHash.timestamp entry) 60000); [lia | reflexivity].
Qed.

(** Whatever the path, the looked-up key is gone afterwards and no
    other key is touched. *)
Lemma getUserIdFromHash_deletes now h (UsersHash : gmap string UserHash.t) :
  snd (getUserIdFromHash now h UsersHash) = delete h UsersHash.
Proof.
  unfold getUserIdFromHash.
  destruct (UsersHash !! h) as [entry|] eqn:H; simpl.
  - destruct (_ >? _); reflexivity.
  - symmetry. apply delete_id. exact H.
Qed.

(** C3.  [createUserHash] stores [{userId, timestamp, secret}] under
    the digest of [userId || "||" || secret], and a
    [getUserIdFromHash] of that digest no later than 60000 ms after
    the creation time returns exactly the [userId] that was put (and
    removes the entry). *)
Theorem resolve_after_put (UsersHash : gmap string UserHash.t)
    (userId secret : string) (created now : Z) :
  now - created <= 60000 ->
  createUserHash getHashSha256 created userId secret UsersHash
    !! getHashSha256 (userId +:+ "||" +:+ secret) 64
  = Some {| UserHash.userId := userId;
            UserHash.timestamp := created;
            UserHash.secret := secret |}
  /\ getUserIdFromHash now (getHashSha256 (userId +:+ "||" +:+ secret) 64)
       (createUserHash getHashSha256 created userId secret UsersHash)
     = (Ok userId, delete (getHashSha256 (userId +:+ "||" +:+ secret) 64) UsersHash).
Proof.
  intros Hage.
  assert (Hput : createUserHash getHashSha256 created userId secret UsersHash
                   !! getHashSha256 (userId +:+ "||" +:+ secret) 64
                 = Some {| UserHash.userId := userId;
                           UserHash.timestamp := created;
                           UserHash.secret := secret |}).
  { unfold createUserHash. apply lookup_insert_eq. }
  split; [exact Hput|].
  rewrite (getUserIdFromHash_live now _ _ _ Hput) by (simpl; lia).
  simpl. f_equal. unfold createUserHash. apply delete_insert_eq.
Qed.

End Exchange.


(** C5.  An entry older than 60000 ms at lookup time is deleted and the
    lookup fails with the 410 "expired" error; any further lookup of the
    same hash fails with the 401 "not found" error. *)
Theorem expired_then_not_found (UsersHash : gmap string UserHash.t)
    (h : string) (entry : UserHash.t) (now later : Z) :
  UsersHash !! h = Some entry ->
  now - UserHash.timestamp entry > 60000 ->
  getUserIdFromHash now h UsersHash = (Throw Expired, delete h UsersHash)
  /\ delete h UsersHash !! h = None
  /\ getUserIdFromHash later h (delete h UsersHash) = (Throw NotFound, delete h UsersHash).
Proof.
  intros H Hage.
  split; [apply (getUserIdFromHash_expired now h entry); assumption|].
  assert (Hgone : delete h UsersHash !! h = None) by apply lookup_delete_eq.
  split; [exact Hgone|].
  apply getUserIdFromHash_absent. exact Hgone.
Qed.

(** C3, at a concrete input: a put at clock 1000 resolved at clock 2000. *)
Lemma resolve_after_put_witness :
  getUserIdFromHash 2000 "u1||secretA"
    (createUserHash (fun s _ => s) 1000 "u1" "secretA" ∅)
  = (Ok "u1", delete "u1||secretA" ∅).
Proof.
  apply (proj2 (resolve_after_put (fun s _ => s) ∅ "u1" "secretA" 1000 2000
                  ltac:(lia))).
Defined.

(** C5, at a concrete input: an entry created at clock 0, looked up at
    clock 60001 and again at clock 60002. *)
Lemma expired_then_not_found_witness :
  getUserIdFromHash 60001 "h" {[ "h" := Examples.handoff ]}
  = (Throw Expired, delete "h" {[ "h" := Examples.handoff ]})
  /\ delete "h" ({[ "h" := Examples.handoff ]} : gmap string UserHash.t) !! "h" = None
  /\ getUserIdFromHash 60002 "h" (delete "h" {[ "h" := Examples.handoff ]})
     = (Throw NotFound, delete "h" {[ "h" := Examples.handoff ]}).
Proof.
  apply (expired_then_not_found {[ "h" := Examples.handoff ]} "h" Examples.handoff
           60001 60002 ltac:(apply lookup_singleton_eq) ltac:(simpl; lia)).
Defined.

(** The two failures are told apart by their status. *)
Lemma Expired_is_not_NotFound : Expired <> NotFound.
Proof. discriminate. Qed.

(** The boundary: an entry exactly 60000 ms old is still returned. *)
Lemma resolve_at_ttl (UsersHash : gmap string UserHash.t) (h : string)
    (entry : UserHash.t) :
  UsersHash !! h = Some entry ->
  getUserIdFromHash (UserHash.timestamp entry + 60000) h UsersHash
  = (Ok (UserHash.userId entry), delete h UsersHash).
Proof. intros H. apply getUserIdFromHash_live; [exact H | lia]. Qed.

(** *** [updatePhoneNumber] *)

Lemma updatePhoneNumber_succeeds now userId phoneNumber user
    (Users : gmap string User.t) :
  Users !! userId = Some user ->
  exists Users', updatePhoneNumber now userId phoneNumber Users = (Ok now, Users').
Proof. intros H. unfold updatePhoneNumber. rewrite H. eauto. Qed.

(** C10 (as amended).  A successful [updatePhoneNumber(userId,
    phoneNumber)] leaves the account with the new phone number and with
    [phoneVerified] false, its other fields and every other account
    unchanged; so the [info] that [GetUserFromUID] then returns has
    [phoneVerified] false, and the SMS capability that [GET /basicInfo]
    and [VerifyUpdatePhoneNumber] resolve from it is false for every
    device population. *)
Theorem updatePhoneNumber_revokes_SMS (now : Z) (userId phoneNumber : string)
    (Users Users' : gmap string User.t) (writeTime : Z) :
  updatePhoneNumber now userId phoneNumber Users = (Ok writeTime, Users') ->
  (exists user user',
      Users !! userId = Some user
      /\ Users' !! userId = Some user'
      /\ User.phoneNumber user' = phoneNumber
      /\ User.phoneVerified user' = false
      /\ User.username user' = User.username user
      /\ User.name user' = User.name user
      /\ User.secret user' = User.secret user)
  /\ (forall other, other <> userId -> Users' !! other = Users !! other)
  /\ (exists info,
        GetUserFromUID userId Users' = Ok info
        /\ info_phoneNumber info = phoneNumber
        /\ info_phoneVerified info = false
        /\ forall total mobile,
             Resolver.SMS (Resolver.basicInfo_methods
                             (info_phoneVerified info) total mobile) = false
             /\ Resolver.SMS (Resolver.VerifyUpdatePhoneNumber_methods
                                (info_phoneVerified info) total mobile) = false).
Proof.
  unfold updatePhoneNumber.
  destruct (Users !! userId) as [user|] eqn:Hu; [|discriminate].
  intros H. injection H as _ <-.
  split; [|split].
  - eexists user, _. split; [reflexivity|].
    split; [apply lookup_insert_eq|]. simpl. repeat split.
  - intros other Hne. apply lookup_insert_ne. congruence.
  - unfold GetUserFromUID. rewrite lookup_insert_eq. simpl.
    eexists. split; [reflexivity|]. simpl. repeat split.
Qed.

(** C10, at a concrete input: user ["u1"], whose phone is verified,
    changes the number. *)
Lemma updatePhoneNumber_revokes_SMS_witness :
  updatePhoneNumber 7 "u1" "+15555550199" Examples.accounts
  = (Ok 7, snd (updatePhoneNumber 7 "u1" "+15555550199" Examples.accounts))
  /\ (exists info,
        GetUserFromUID "u1"
          (snd (updatePhoneNumber 7 "u1" "+15555550199" Examples.accounts)) = Ok info
        /\ info_phoneNumber info = "+15555550199"
        /\ info_phoneVerified info = false
        /\ forall total mobile,
             Resolver.SMS (Resolver.basicInfo_methods
                             (info_phoneVerified info) total mobile) = false
             /\ Resolver.SMS (Resolver.VerifyUpdatePhoneNumber_methods
                                (info_phoneVerified info) total mobile) = false).
Proof.
  assert (H : updatePhoneNumber 7 "u1" "+15555550199" Examples.accounts
              = (Ok 7, snd (updatePhoneNumber 7 "u1" "+15555550199" Examples.accounts))).
  { unfold updatePhoneNumber, Examples.accounts.
    rewrite lookup_singleton_eq. reflexivity. }
  split; [exact H|].
  exact (proj2 (proj2 (updatePhoneNumber_revokes_SMS _ _ _ _ _ _ H))).
Defined.

(** C10, counterexample.  User ["u1"] changes the phone number: the
    update succeeds and the account reads [phoneVerified] false, yet
    [POST /getAvailableAuthMethods], which never reads the account,
    still answers SMS true for that user's devices (two, one of them
    mobile). *)
Lemma SMS_survives_at_getAvailableAuthMethods :
  fst (updatePhoneNumber 7 "u1" "+15555550199" Examples.accounts) = Ok 7
  /\ User.phoneVerified
       <$> snd (updatePhoneNumber 7 "u1" "+15555550199" Examples.accounts) !! "u1"
     = Some false
  /\ Resolver.SMS (Resolver.getAvailableAuthMethods_methods 2 1) = true.
Proof.
  unfold updatePhoneNumber, Examples.accounts. rewrite lookup_singleton_eq. simpl.
  split; [reflexivity|]. split; [|reflexivity].
  rewrite lookup_insert_eq. reflexivity.
Qed.

End UsersDbSpec.

(** ** The lookup from its first line *)

Module UsersHashRefSpec.






End UsersHashRefSpec.

(** ** Access-token checks *)

Module AccessTokenSpec.
Import Middleware JsFacts.

Section Checks.
Variable env : Env.

Lemma line57_passes accessData expected :
  negb (strict_eq (AccessData.userId accessData) expected)
  || negb (truthy_bool (AccessData.isAccessToken accessData)) = false
  <-> accepted accessData expected.
Proof.
  unfold accepted. rewrite orb_false_iff, !negb_false_iff, strict_eq_spec.
  destruct (AccessData.isAccessToken accessData) as [[|]|]; simpl;
    split; intros [H1 H2]; split; congruence.
Qed.

(** [VerifyAccessToken] has two outcomes only. *)
Lemma VerifyAccessToken_outcomes req :
  VerifyAccessToken env req = Ok true
  \/ VerifyAccessToken env req = Throw (Error (INVALID_ACCESS_TOKEN (codes env))).
Proof.
  unfold VerifyAccessToken, jwt_verify.
  destruct (jwt env (Request.accessToken req)); simpl; auto.
  destruct (_ || _); simpl; auto.
Qed.

Lemma VerifyAccessToken_Ok_iff req :
  VerifyAccessToken env req = Ok true <->
  exists accessData,
    jwt env (Request.accessToken req) = Verified accessData
    /\ accepted accessData (Body.userId (Request.body req)).
Proof.
  unfold VerifyAccessToken, jwt_verify.
  destruct (jwt env (Request.accessToken req)) as [| |accessData]; simpl.
  - split; [discriminate | intros (? & ? & _); discriminate].
  - split; [discriminate | intros (? & ? & _); discriminate].
  - destruct (_ || _) eqn:Hline; simpl.
    + split; [discriminate|]. intros (d & Hd & Hacc).
      injection Hd as <-. apply line57_passes in Hacc. congruence.
    + split; [|reflexivity]. intros _. exists accessData.
      split; [reflexivity|]. apply line57_passes. exact Hline.
Qed.

Lemma VerifyAccessToken_Throw_iff req :
  VerifyAccessToken env req = Throw (Error (INVALID_ACCESS_TOKEN (codes env))) <->
  (jwt env (Request.accessToken req) = SignatureInvalid
   \/ jwt env (Request.accessToken req) = TokenExpired
   \/ exists accessData,
        jwt env (Request.accessToken req) = Verified accessData
        /\ (AccessData.userId accessData <> Body.userId (Request.body req)
            \/ AccessData.isAccessToken accessData = None
            \/ AccessData.isAccessToken accessData = Some false)).
Proof.
  unfold VerifyAccessToken, jwt_verify.
  destruct (jwt env (Request.accessToken req)) as [| |accessData]; simpl.
  - split; auto.
  - split; auto.
  - destruct (_ || _) eqn:Hline; simpl.
    + split; [intros _ | reflexivity]. right; right. exists accessData.
      split; [reflexivity|].
      apply orb_true_iff in Hline as [H|H]; apply negb_true_iff in H.
      * left. apply strict_eq_false. exact H.
      * right. apply truthy_bool_false. exact H.
    + split; [discriminate|].
      apply line57_passes in Hline as [Hu Hm].
      intros [H|[H|(d & Hd & H)]]; try discriminate.
      injection Hd as <-. destruct H as [H|[H|H]]; congruence.
Qed.

(** The soft check annotates the request with exactly the verdict of
    the hard check, and changes nothing else. *)
Lemma CheckAccessTokenMiddleware_agrees req :
  CheckAccessTokenMiddleware env req
  = set_hasAccess req
      (match VerifyAccessToken env req with Ok _ => true | Throw _ => false end).
Proof.
  unfold CheckAccessTokenMiddleware, VerifyAccessToken, jwt_verify. simpl.
  destruct (jwt env (Request.accessToken req)); simpl; try reflexivity.
  destruct (_ || _); reflexivity.
Qed.

End Checks.

(** C6.  For every token string in the [accessToken] cookie and every
    expected subject in [req.body.userId], [VerifyAccessToken] throws
    [INVALID_ACCESS_TOKEN] if and only if the signature does not
    validate, or the token is expired, or the encoded subject differs
    from the expected one, or the [isAccessToken] marker is absent or
    false; it returns [true] exactly in the remaining case, and has no
    third outcome. *)
Theorem VerifyAccessToken_fails_iff (env : Env) (token subject : string)
    (authorization phoneNumber params_phoneNumber : option string)
    (hasAccess : option bool) :
  let req :=
    {| Request.authorization := authorization;
       Request.accessToken := Some token;
       Request.body := {| Body.userId := Some subject;
                          Body.phoneNumber := phoneNumber;
                          Body.hasAccess := hasAccess |};
       Request.params_phoneNumber := params_phoneNumber |} in
  (VerifyAccessToken env req = Throw (Error (INVALID_ACCESS_TOKEN (codes env))) <->
     (jwt env (Some token) = SignatureInvalid
      \/ jwt env (Some token) = TokenExpired
      \/ exists accessData,
           jwt env (Some token) = Verified accessData
           /\ (AccessData.userId accessData <> Some subject
               \/ AccessData.isAccessToken accessData = None
               \/ AccessData.isAccessToken accessData = Some false)))
  /\ (VerifyAccessToken env req = Ok true <->
        exists accessData,
          jwt env (Some token) = Verified accessData
          /\ AccessData.userId accessData = Some subject
          /\ AccessData.isAccessToken accessData = Some true)
  /\ (VerifyAccessToken env req = Ok true
      \/ VerifyAccessToken env req = Throw (Error (INVALID_ACCESS_TOKEN (codes env)))).
Proof.
  intros req. split; [|split].
  - apply (VerifyAccessToken_Throw_iff env req).
  - apply (VerifyAccessToken_Ok_iff env req).
  - apply VerifyAccessToken_outcomes.
Qed.

(** The three verdicts at the example key. *)
Example VerifyAccessToken_examples :
  VerifyAccessToken Examples.env
    (set_userId {| Request.authorization := None;
                   Request.accessToken := Some "access-u1";
                   Request.body := Body.Build_t None None None;
                   Request.params_phoneNumber := None |} (Some "u1")) = Ok true
  /\ VerifyAccessToken Examples.env
       (set_userId {| Request.authorization := None;
                      Request.accessToken := Some "access-u1";
                      Request.body := Body.Build_t None None None;
                      Request.params_phoneNumber := None |} (Some "u2"))
     = Throw (Error "InvalidAccessToken")
  /\ VerifyAccessToken Examples.env
       (set_userId {| Request.authorization := None;
                      Request.accessToken := Some "stale-u1";
                      Request.body := Body.Build_t None None None;
                      Request.params_phoneNumber := None |} (Some "u1"))
     = Throw (Error "InvalidAccessToken").
Proof. repeat split. Qed.

End AccessTokenSpec.

(** ** The conditional check of the phone-number-change endpoint *)

Module UpdatePhoneSpec.
Import Middleware.

Section Check.
Variable env : Env.
Variable req : Request.t.
Variable userId : string.
Hypothesis subject : Body.userId (Request.body req) = Some userId.
Hypothesis nonempty : userId <> "".

(** Line 91, once the account and the device lists are read. *)
Lemma VerifyUpdatePhoneNumber_line91 :
  VerifyUpdatePhoneNumber env req =
  if ((match Users env !! userId with
       | Some user => User.phoneVerified user
       | None => false
       end)
      || (Z.of_nat (length (getAllMobileDevices env userId)) >? 0))
     && truthy_string (Body.phoneNumber (Request.body req))
  then VerifyAccessToken env req
  else Ok true.
Proof.
  unfold VerifyUpdatePhoneNumber. rewrite subject.
  destruct (String.eqb_spec userId ""); [contradiction|].
  unfold Resolver.VerifyUpdatePhoneNumber_methods. simpl.
  set (pv := match Users env !! userId with
             | Some user => User.phoneVerified user | None => false end).
  set (mobile := Z.of_nat (length (getAllMobileDevices env userId)) >? 0).
  destruct pv, mobile, (_ >? 0); reflexivity.
Qed.

(** No verified phone and no mobile device: no method, and the check
    passes whatever the cookie holds. *)
Lemma VerifyUpdatePhoneNumber_no_method :
  (forall user, Users env !! userId = Some user -> User.phoneVerified user = false) ->
  getAllMobileDevices env userId = [] ->
  VerifyUpdatePhoneNumber env req = Ok true.
Proof.
  intros Hpv Hmobile. rewrite VerifyUpdatePhoneNumber_line91, Hmobile.
  destruct (Users env !! userId) as [user|]; [rewrite (Hpv user eq_refl)|];
    reflexivity.
Qed.

(** No truthy [phoneNumber] in the body: the check passes whatever the
    cookie holds. *)
Lemma VerifyUpdatePhoneNumber_no_body_phoneNumber :
  truthy_string (Body.phoneNumber (Request.body req)) = false ->
  VerifyUpdatePhoneNumber env req = Ok true.
Proof.
  intros H. rewrite VerifyUpdatePhoneNumber_line91, H, andb_false_r. reflexivity.
Qed.

(** A method and a truthy [phoneNumber] in the body: the check is
    [VerifyAccessToken]. *)
Lemma VerifyUpdatePhoneNumber_delegates user :
  Users env !! userId = Some user ->
  User.phoneVerified user = true \/ getAllMobileDevices env userId <> [] ->
  truthy_string (Body.phoneNumber (Request.body req)) = true ->
  VerifyUpdatePhoneNumber env req = VerifyAccessToken env req.
Proof.
  intros Hu Hm Hp. rewrite VerifyUpdatePhoneNumber_line91, Hu, Hp, andb_true_r.
  destruct Hm as [-> | Hm]; [reflexivity|].
  destruct (getAllMobileDevices env userId); [contradiction|].
  rewrite orb_true_r. reflexivity.
Qed.

End Check.

(** C8.  [POST /updatePhone/+15555550199] by user ["u1"], who has a
    verified phone, a mobile and a desktop device, sent without an
    access-token cookie and without a [phoneNumber] field in the body:
    the account has available methods and [VerifyAccessToken] rejects
    the request, yet [VerifyUpdatePhoneNumber] passes it, and the
    handler's [updatePhoneNumber] call then replaces the number on file
    with the route parameter. *)
Theorem VerifyUpdatePhoneNumber_reads_body_not_route :
  Resolver.VerifyUpdatePhoneNumber_methods
    (User.phoneVerified Examples.ann)
    (Z.of_nat (length (getAllDevices Examples.env "u1")))
    (Z.of_nat (length (getAllMobileDevices Examples.env "u1")))
  = {| Resolver.SMS := true; Resolver.QR := true; Resolver.SSID := true;
       Resolver.Geolocation := Some true; Resolver.Smart := None |}
  /\ VerifyAccessToken Examples.env Examples.updatePhone_request
     = Throw (Error "InvalidAccessToken")
  /\ VerifyUpdatePhoneNumber Examples.env Examples.updatePhone_request = Ok true
  /\ fst (updatePhone 7 Examples.updatePhone_request (Users Examples.env)) = Ok 7
  /\ User.phoneNumber
       <$> snd (updatePhone 7 Examples.updatePhone_request (Users Examples.env)) !! "u1"
     = Some "+15555550199".
Proof.
  split; [reflexivity|]. split; [reflexivity|].
  split.
  - apply (VerifyUpdatePhoneNumber_no_body_phoneNumber _ _ "u1");
      [reflexivity | discriminate | reflexivity].
  - unfold updatePhone, UsersDb.updatePhoneNumber. simpl.
    unfold Examples.accounts. rewrite lookup_singleton_eq. simpl.
    split; [reflexivity|]. rewrite lookup_insert_eq. reflexivity.
Qed.

End UpdatePhoneSpec.

(** ** The error handler and the validation chains *)

Module GatewaySpec.
Import Middleware JsFacts.

Section Handler.
Variable EC : ERROR_CODES.

(** Only the first recorded message reaches the [switch]. *)
Lemma AuthValidate_first message rest :
  AuthValidate EC (message :: rest) = AuthValidate EC [message].
Proof. reflexivity. Qed.

Lemma AuthValidate_empty : AuthValidate EC [] = Next.
Proof. reflexivity. Qed.

(** A thrown code without a colon is the code the [switch] sees. *)
Lemma errorCode_of_plain code :
  includes ":" code = false -> errorCode_of code = code.
Proof.
  intros H. unfold errorCode_of. rewrite (split_no_separator _ _ H). reflexivity.
Qed.

(** The first [case] needs no assumption on the table. *)
Lemma AuthValidate_MISSING_HEADER message rest :
  errorCode_of message = MISSING_HEADER EC ->
  AuthValidate EC (message :: rest) = Respond 403 (ErrorBody (MISSING_HEADER EC)).
Proof.
  intros H. unfold AuthValidate. rewrite H, String.eqb_refl. reflexivity.
Qed.

(** The [default] case: a code that matches no [case] label. *)
Lemma AuthValidate_unrecognized message rest :
  errorCode_of message <> MISSING_HEADER EC ->
  errorCode_of message <> MISSING_BEARER EC ->
  errorCode_of message <> INVALID_FIREBASE_TOKEN EC ->
  errorCode_of message <> DEVICE_EXISTS EC ->
  errorCode_of message <> PHONE_NUMBER_NOT_VERIFIED EC ->
  errorCode_of message <> errorCode_of (MISSING_PARAMATER EC) ->
  errorCode_of message <> INVALID_ACCESS_TOKEN EC ->
  AuthValidate EC (message :: rest) = Respond 400 (ErrorBody (errorCode_of message)).
Proof.
  intros H1 H2 H3 H4 H5 H6 H7. unfold AuthValidate.
  repeat match goal with
         | |- context [String.eqb ?a ?b] =>
             destruct (String.eqb_spec a b); [contradiction|]
         end.
  reflexivity.
Qed.

(** C9.  When the first recorded message carries the [DEVICE_EXISTS]
    code (and the table does not give that code to an earlier case),
    [AuthValidate] reaches [res.staus(401)]: the call throws a
    TypeError, and neither a 401 status nor a JSON body is sent. *)
Theorem AuthValidate_DEVICE_EXISTS message rest :
  errorCode_of message = DEVICE_EXISTS EC ->
  DEVICE_EXISTS EC <> MISSING_HEADER EC ->
  DEVICE_EXISTS EC <> MISSING_BEARER EC ->
  DEVICE_EXISTS EC <> INVALID_FIREBASE_TOKEN EC ->
  AuthValidate EC (message :: rest)
  = Rejected (TypeError "res.staus is not a function").
Proof.
  intros Hcode H1 H2 H3. unfold AuthValidate. rewrite Hcode.
  repeat match goal with
         | |- context [String.eqb ?a ?b] =>
             destruct (String.eqb_spec a b); [contradiction|]
         end.
  rewrite String.eqb_refl. reflexivity.
Qed.

End Handler.

(** C9, at the codes of the spec's table. *)
Lemma AuthValidate_DEVICE_EXISTS_witness :
  AuthValidate spec_ERROR_CODES ["DeviceExists"]
  = Rejected (TypeError "res.staus is not a function").
Proof.
  apply (AuthValidate_DEVICE_EXISTS spec_ERROR_CODES "DeviceExists" []
           ltac:(reflexivity) ltac:(discriminate) ltac:(discriminate)
           ltac:(discriminate)).
Defined.

(** The other rows of the status table, at the codes of the spec. *)
Lemma AuthValidate_status_table :
  AuthValidate spec_ERROR_CODES ["MissingHeader"]
    = Respond 403 (ErrorBody "MissingHeader")
  /\ AuthValidate spec_ERROR_CODES ["MissingBearer"]
     = Respond 403 (ErrorBody "MissingBearer")
  /\ AuthValidate spec_ERROR_CODES ["InvalidIdentityToken"]
     = Respond 400 (ErrorBody "InvalidIdentityToken")
  /\ AuthValidate spec_ERROR_CODES ["PhoneNumberNotVerified"]
     = Respond 409 (ErrorBody "PhoneNumberNotVerified")
  /\ AuthValidate spec_ERROR_CODES ["MissingParameter: username"]
     = Respond 412 (SuccessErrorBody false "MissingParameter username")
  /\ AuthValidate spec_ERROR_CODES ["InvalidAccessToken"]
     = Respond 417 (SuccessErrorBody false "InvalidAccessToken")
  /\ AuthValidate spec_ERROR_CODES ["Invalid value"]
     = Respond 400 (ErrorBody "Invalid value").
Proof. repeat split. Qed.

Section Chains.
Context {Req : Type}.
Variable EC : ERROR_CODES.

Lemma fold_run_chain (chains : list (ValidationChain Req)) errors req :
  fold_left run_chain chains (errors, req)
  = ((errors ++ fst (run_chains chains req))%list, snd (run_chains chains req)).
Proof.
  unfold run_chains. revert errors req.
  induction chains as [|chain chains IH]; intros errors req; simpl.
  - rewrite app_nil_r. reflexivity.
  - unfold run_chain at 2 4 6. simpl.
    destruct (chain req) as [found req'] eqn:Hc; simpl.
    rewrite (IH (errors ++ found)%list req'), (IH found req').
    rewrite <- app_assoc. reflexivity.
Qed.

(** Every chain of the array runs, on the request its predecessors
    left, whatever they recorded. *)
Lemma run_chains_cons (chain : ValidationChain Req) chains req :
  run_chains (chain :: chains) req
  = ((fst (chain req) ++ fst (run_chains chains (snd (chain req))))%list,
     snd (run_chains chains (snd (chain req)))).
Proof.
  unfold run_chains at 1. simpl. unfold run_chain at 2. simpl.
  destruct (chain req) as [found req']; simpl.
  apply fold_run_chain.
Qed.

Lemma run_chains_nil (req : Req) : run_chains [] req = ([], req).
Proof. reflexivity. Qed.

(** C7 (as amended).  For every chain [[A; B; C]] and every request
    on which [A] records a failure, [B] then runs on the request as
    [A] left it and [C] on the request as [B] left it, the handler
    sees the request with the effects of all three, and
    [AuthValidate] answers as it does for [A]'s first message alone:
    the code it reports is [A]'s, and nothing that [B] or [C]
    recorded is reported. *)
Theorem first_failure_reported (A B C : ValidationChain Req) (req : Req)
    (message : string) (more : list string) :
  fst (A req) = message :: more ->
  run_chains [A; B; C] req
  = ((fst (A req) ++ fst (B (snd (A req)))
        ++ fst (C (snd (B (snd (A req))))))%list,
     snd (C (snd (B (snd (A req))))))
  /\ gateway EC [A; B; C] req
     = (AuthValidate EC [message], snd (C (snd (B (snd (A req))))))
  /\ (forall status json,
        fst (gateway EC [A; B; C] req) = Respond status json ->
        json = ErrorBody (errorCode_of message)
        \/ json = SuccessErrorBody false (errorCode_of message)
        \/ json = SuccessErrorBody false
                    (concat_undefined (errorCode_of message) (param_of message))).
Proof.
  intros HA.
  assert (Hrun : run_chains [A; B; C] req
                 = ((fst (A req) ++ fst (B (snd (A req)))
                       ++ fst (C (snd (B (snd (A req))))))%list,
                    snd (C (snd (B (snd (A req))))))).
  { rewrite !run_chains_cons, run_chains_nil. simpl.
    rewrite app_nil_r. reflexivity. }
  assert (Hgate : gateway EC [A; B; C] req
                  = (AuthValidate EC [message], snd (C (snd (B (snd (A req))))))).
  { unfold gateway. rewrite Hrun, HA. reflexivity. }
  split; [exact Hrun|]. split; [exact Hgate|].
  intros status json. rewrite Hgate. simpl.
  repeat match goal with
         | |- context [String.eqb ?a ?b] => destruct (String.eqb a b)
         end;
    intros H; inversion H; auto.
Qed.

End Chains.

(** C7, at the test doubles: [A] records ["MissingHeader"]. *)
Lemma first_failure_reported_witness :
  gateway spec_ERROR_CODES
    [failing_check "MissingHeader"; counting_check_B; counting_check_C] (0%nat, 0%nat)
  = (AuthValidate spec_ERROR_CODES ["MissingHeader"],
     snd (counting_check_C
            (snd (counting_check_B (snd (failing_check "MissingHeader" (0%nat, 0%nat))))))).
Proof.
  apply (proj1 (proj2 (first_failure_reported spec_ERROR_CODES
                         (failing_check "MissingHeader")
                         counting_check_B counting_check_C (0%nat, 0%nat)
                         "MissingHeader" [] ltac:(reflexivity)))).
Defined.

(** C7, counterexample.  On a request where [A] fails, the gateway
    answers 403 with [A]'s code, and the counters of [B] and [C] are
    both 1: each of them ran once. *)
Lemma later_checks_run :
  fst (failing_check "MissingHeader" (0%nat, 0%nat)) = ["MissingHeader"]
  /\ gateway spec_ERROR_CODES
       [failing_check "MissingHeader"; counting_check_B; counting_check_C] (0%nat, 0%nat)
     = (Respond 403 (ErrorBody "MissingHeader"), (1%nat, 1%nat)).
Proof. split; reflexivity. Qed.

(** The same on the chain of [/checkPhoneNumberChange]: the provider
    rejects the bearer token, [VerifyAccessToken] runs all the same and
    records its own failure, and the response carries the first code
    only. *)
Lemma CheckPhoneNumberChange_rejected_bearer :
  run_chains (CheckPhoneNumberChangeValidator Examples.env)
    Examples.rejected_bearer_request
  = (["InvalidIdentityToken"; "InvalidAccessToken"], Examples.rejected_bearer_request)
  /\ fst (gateway spec_ERROR_CODES (CheckPhoneNumberChangeValidator Examples.env)
            Examples.rejected_bearer_request)
     = Respond 400 (ErrorBody "InvalidIdentityToken").
Proof. split; reflexivity. Qed.

End GatewaySpec.

(** ** Strings *)

Module StringFacts.

Lemma append_cons (x : ascii) (a b : string) : String x a +:+ b = String x (a +:+ b).
Proof. reflexivity. Qed.

Lemma append_assoc (a b c : string) : (a +:+ b) +:+ c = a +:+ (b +:+ c).
Proof.
  induction a as [|x a IH]; [reflexivity|].
  rewrite !append_cons, IH. reflexivity.
Qed.

(** Splitting at the first separator: the text before it is the first
    piece, and the rest is split on its own. *)
Lemma split_first sep (a rest : string) :
  includes sep a = false ->
  split sep (a +:+ String sep rest) = a :: split sep rest.
Proof.
  induction a as [|x a IH].
  - intros _. change ("" +:+ String sep rest) with (String sep rest).
    simpl. rewrite Ascii.eqb_refl. reflexivity.
  - intros H. simpl in H. apply orb_false_iff in H as [Hx Ha].
    rewrite append_cons. simpl. rewrite Hx, (IH Ha). reflexivity.
Qed.

End StringFacts.

(** ** More on the hash exchange store *)

Module ExchangeSpec.
Import UsersDb.

(** X1.  A lookup removes the looked-up hash and nothing else: every
    other pending handoff is still there afterwards, on each of the
    three paths. *)
Theorem lookup_touches_one_key (now : Z) (h other : string)
    (UsersHash : gmap string UserHash.t) :
  snd (getUserIdFromHash now h UsersHash) !! other
  = if decide (other = h) then None else UsersHash !! other.
Proof.
  rewrite UsersDbSpec.getUserIdFromHash_deletes.
  destruct (decide (other = h)) as [->|Hne].
  - apply lookup_delete_eq.
  - apply lookup_delete_ne. congruence.
Qed.

(** X2.  For a stored entry the time-to-live is inclusive: the lookup
    returns the user id exactly when the entry is at most 60000 ms old
    (an entry stamped in the future counts as fresh), and reports the
    410 error exactly when it is older. *)
Theorem ttl_is_inclusive (now : Z) (h : string) (entry : UserHash.t)
    (UsersHash : gmap string UserHash.t) :
  UsersHash !! h = Some entry ->
  (fst (getUserIdFromHash now h UsersHash) = Ok (UserHash.userId entry)
   <-> now <= UserHash.timestamp entry + 60000)
  /\ (fst (getUserIdFromHash now h UsersHash) = Throw Expired
      <-> UserHash.timestamp entry + 60000 < now).
Proof.
  intros H. unfold getUserIdFromHash. rewrite H.
  destruct (Z.gtb_spec (now - UserHash.timestamp entry) 60000); simpl.
  - split; split; intros; try discriminate; try reflexivity; lia.
  - split; split; intros; try discriminate; try reflexivity; lia.
Qed.

Lemma ttl_is_inclusive_witness :
  (fst (getUserIdFromHash 60000 "h" {[ "h" := Examples.handoff ]}) = Ok "u1"
   <-> 60000 <= 0 + 60000)
  /\ (fst (getUserIdFromHash 60000 "h" {[ "h" := Examples.handoff ]}) = Throw Expired
      <-> 0 + 60000 < 60000).
Proof.
  apply (ttl_is_inclusive 60000 "h" Examples.handoff {[ "h" := Examples.handoff ]}
           ltac:(apply lookup_singleton_eq)).
Defined.

Section Digest.
Variable getHashSha256 : string -> Z -> string.

(** X4.  Putting the same user id and secret again replaces the pending
    entry instead of adding one, and restarts its 60000 ms window: a
    lookup within 60000 ms of the second put succeeds however old the
    first put is, and leaves the collection as if neither had happened. *)
Theorem put_again_restarts_window (UsersHash : gmap string UserHash.t)
    (userId secret : string) (first second now : Z) :
  now - second <= 60000 ->
  createUserHash getHashSha256 second userId secret
    (createUserHash getHashSha256 first userId secret UsersHash)
  = createUserHash getHashSha256 second userId secret UsersHash
  /\ getUserIdFromHash now (getHashSha256 (userId +:+ "||" +:+ secret) 64)
       (createUserHash getHashSha256 second userId secret
          (createUserHash getHashSha256 first userId secret UsersHash))
     = (Ok userId, delete (getHashSha256 (userId +:+ "||" +:+ secret) 64) UsersHash).
Proof.
  intros Hage.
  assert (Hsame : createUserHash getHashSha256 second userId secret
                    (createUserHash getHashSha256 first userId secret UsersHash)
                  = createUserHash getHashSha256 second userId secret UsersHash).
  { unfold createUserHash. apply insert_insert_eq. }
  split; [exact Hsame|]. rewrite Hsame.
  rewrite (UsersDbSpec.getUserIdFromHash_live now _
             {| UserHash.userId := userId; UserHash.timestamp := second;
                UserHash.secret := secret |}).
  - simpl. f_equal. unfold createUserHash. apply delete_insert_eq.
  - unfold createUserHash. apply lookup_insert_eq.
  - simpl. lia.
Qed.

(** X5.  The digest input is the plain concatenation
    [userId + "||" + secret], so the pair (u||s, t) and the pair
    (u, s||t) are stored under the same hash: if both are put, the later
    put overwrites the earlier one, and the holder of the hash resolves
    it to the later put's user id. *)
Theorem separator_is_ambiguous (UsersHash : gmap string UserHash.t)
    (u s t : string) (first second now : Z) :
  now - second <= 60000 ->
  getHashSha256 ((u +:+ "||" +:+ s) +:+ "||" +:+ t) 64
  = getHashSha256 (u +:+ "||" +:+ (s +:+ "||" +:+ t)) 64
  /\ getUserIdFromHash now (getHashSha256 ((u +:+ "||" +:+ s) +:+ "||" +:+ t) 64)
       (createUserHash getHashSha256 second u (s +:+ "||" +:+ t)
          (createUserHash getHashSha256 first (u +:+ "||" +:+ s) t UsersHash))
     = (Ok u, delete (getHashSha256 ((u +:+ "||" +:+ s) +:+ "||" +:+ t) 64) UsersHash).
Proof.
  intros Hage.
  assert (Hkey : (u +:+ "||" +:+ s) +:+ "||" +:+ t = u +:+ "||" +:+ (s +:+ "||" +:+ t)).
  { rewrite !StringFacts.append_assoc. reflexivity. }
  split; [rewrite Hkey; reflexivity|].
  unfold createUserHash. rewrite Hkey, insert_insert_eq.
  rewrite (UsersDbSpec.getUserIdFromHash_live now _
             {| UserHash.userId := u; UserHash.timestamp := second;
                UserHash.secret := s +:+ "||" +:+ t |}).
  - simpl. f_equal. apply delete_insert_eq.
  - apply lookup_insert_eq.
  - simpl. lia.
Qed.

End Digest.

Lemma put_again_restarts_window_witness :
  getUserIdFromHash 100000 "u1||secretA"
    (createUserHash (fun s _ => s) 90000 "u1" "secretA"
       (createUserHash (fun s _ => s) 0 "u1" "secretA" ∅))
  = (Ok "u1", delete "u1||secretA" ∅).
Proof.
  apply (proj2 (put_again_restarts_window (fun s _ => s) ∅ "u1" "secretA"
                  0 90000 100000 ltac:(lia))).
Defined.

Lemma separator_is_ambiguous_witness :
  getUserIdFromHash 2000 "a||b||c"
    (createUserHash (fun s _ => s) 1500 "a" "b||c"
       (createUserHash (fun s _ => s) 1000 "a||b" "c" ∅))
  = (Ok "a", delete "a||b||c" ∅).
Proof.
  apply (proj2 (separator_is_ambiguous (fun s _ => s) ∅ "a" "b" "c"
                  1000 1500 2000 ltac:(lia))).
Defined.

End ExchangeSpec.

(** ** Accounts: registration and phone-number update *)

Module AccountsSpec.
Import Registration.

Lemma getUsernameUnique_spec (wanted : string) (Users : gmap string User.t) :
  getUsernameUnique wanted Users = true
  <-> forall id account, Users !! id = Some account -> User.username account <> wanted.
Proof.
  unfold getUsernameUnique.
  set (result := filter (fun kv => User.username (snd kv) = wanted) Users).
  assert (Hempty : result = ∅ <->
                   forall id account, Users !! id = Some account ->
                                      User.username account <> wanted).
  { unfold result. rewrite map_empty. split.
    - intros Hnone id account Hlook Hname.
      specialize (Hnone id). apply map_lookup_filter_None in Hnone as [Hn|Hn].
      + congruence.
      + exact (Hn account Hlook Hname).
    - intros Hfree id. apply map_lookup_filter_None.
      destruct (Users !! id) as [account|] eqn:Hlook; [right|left; reflexivity].
      intros account' Heq. injection Heq as <-. simpl. exact (Hfree id account Hlook). }
  destruct (Z.gtb_spec (Z.of_nat (size result)) 0) as [Hpos|Hzero].
  - split; [discriminate|]. intros H. apply Hempty in H.
    rewrite H, map_size_empty in Hpos. simpl in Hpos. lia.
  - split; [intros _|reflexivity]. apply Hempty, map_size_empty_iff. lia.
Qed.

(** X6.  [createUser] keeps usernames unique: if no two accounts share a
    username before the call, none do after it, whether it registered
    the account or refused with the 409 error. *)
Theorem createUser_keeps_usernames_unique (secret : string) (new : user)
    (Users : gmap string User.t) :
  usernames_unique Users ->
  usernames_unique (snd (createUser secret new Users)).
Proof.
  intros Huniq. unfold createUser.
  destruct (getUsernameUnique (username new) Users) eqn:Hfree; simpl; [|exact Huniq].
  pose proof (proj1 (getUsernameUnique_spec _ _) Hfree) as Hnew. clear Hfree.
  rename Hnew into Hfree.
  intros id1 id2 user1 user2 H1 H2 Hname.
  destruct (decide (id1 = userId new)) as [->|Hne1];
    destruct (decide (id2 = userId new)) as [->|Hne2]; [reflexivity| | |].
  - rewrite lookup_insert_eq in H1. injection H1 as <-.
    rewrite lookup_insert_ne in H2 by congruence.
    exfalso. apply (Hfree id2 user2 H2). symmetry. exact Hname.
  - rewrite lookup_insert_eq in H2. injection H2 as <-.
    rewrite lookup_insert_ne in H1 by congruence.
    exfalso. apply (Hfree id1 user1 H1). exact Hname.
  - rewrite lookup_insert_ne in H1 by congruence.
    rewrite lookup_insert_ne in H2 by congruence.
    exact (Huniq id1 id2 user1 user2 H1 H2 Hname).
Qed.

Lemma accounts_usernames_unique : usernames_unique Examples.accounts.
Proof.
  intros id1 id2 user1 user2 H1 H2 _. unfold Examples.accounts in *.
  apply lookup_singleton_Some in H1 as [<- _].
  apply lookup_singleton_Some in H2 as [<- _]. reflexivity.
Qed.

Lemma createUser_keeps_usernames_unique_witness :
  usernames_unique
    (snd (createUser "t" {| userId := "u2"; username := "bob"; name := "Bob";
                            phoneNumber := "+15555550111" |} Examples.accounts)).
Proof.
  apply (createUser_keeps_usernames_unique "t" _ Examples.accounts
           accounts_usernames_unique).
Defined.

(** X7.  [createUser] registers the account exactly when no account,
    the caller's own included, carries the username.  A refusal is the
    409 error and changes nothing.  A registration replaces whatever
    document the user id had: the account then reads back with the
    submitted fields, the fresh secret and [phoneVerified] false. *)
Theorem createUser_outcome (secret : string) (new : user) (Users : gmap string User.t) :
  (fst (createUser secret new Users) = Ok tt
   <-> forall id account, Users !! id = Some account ->
                          User.username account <> username new)
  /\ (fst (createUser secret new Users) = Ok tt
      \/ createUser secret new Users
         = (Throw (HttpError 409 "Username Already Exists"), Users))
  /\ (fst (createUser secret new Users) = Ok tt ->
      UsersDb.GetUserFromUID (userId new) (snd (createUser secret new Users))
      = Ok {| UsersDb.info_username := username new;
              UsersDb.info_name := name new;
              UsersDb.info_phoneNumber := phoneNumber new;
              UsersDb.info_phoneVerified := false |}
      /\ GetUserSecretFromUID (userId new) (snd (createUser secret new Users)) = Ok secret
      /\ forall other, other <> userId new ->
           snd (createUser secret new Users) !! other = Users !! other).
Proof.
  rewrite <- getUsernameUnique_spec. unfold createUser.
  destruct (getUsernameUnique (username new) Users); simpl.
  - split; [split; reflexivity|]. split; [left; reflexivity|].
    intros _. unfold UsersDb.GetUserFromUID, GetUserSecretFromUID.
    rewrite lookup_insert_eq. simpl. split; [reflexivity|]. split; [reflexivity|].
    intros other Hne. apply lookup_insert_ne. congruence.
  - split; [split; discriminate|]. split; [right; reflexivity | discriminate].
Qed.

(** X8.  [updatePhoneNumber] never creates or removes an account: the
    set of user ids is the same after the call, it succeeds exactly when
    the user id has an account, and a failed call leaves the collection
    as it was. *)
Theorem updatePhoneNumber_keeps_accounts (now : Z) (userId phoneNumber : string)
    (Users : gmap string User.t) :
  dom (snd (UsersDb.updatePhoneNumber now userId phoneNumber Users)) = dom Users
  /\ (fst (UsersDb.updatePhoneNumber now userId phoneNumber Users) = Ok now
      <-> userId ∈ dom Users)
  /\ (userId ∉ dom Users ->
      UsersDb.updatePhoneNumber now userId phoneNumber Users
      = (Throw (Error "NOT_FOUND: No document to update"), Users)).
Proof.
  unfold UsersDb.updatePhoneNumber.
  destruct (Users !! userId) as [account|] eqn:H; simpl.
  - assert (Hin : userId ∈ dom Users) by (apply elem_of_dom; eauto).
    split; [|split].
    + rewrite dom_insert_L. apply subseteq_union_1_L, singleton_subseteq_l. exact Hin.
    + split; [intros _; exact Hin | reflexivity].
    + intros Hout. contradiction.
  - assert (Hout : userId ∉ dom Users) by (apply not_elem_of_dom; exact H).
    split; [reflexivity|]. split; [|reflexivity].
    split; [discriminate | intros Hin; contradiction].
Qed.

End AccountsSpec.

(** ** More on the checks and the error handler *)

Module ChecksSpec.
Import Middleware JsFacts.

Lemma AuthValidate_Next_iff (EC : ERROR_CODES) (errors : list string) :
  AuthValidate EC errors = Next <-> errors = [].
Proof.
  destruct errors as [|message rest]; simpl; [split; reflexivity|].
  split; [|discriminate].
  repeat match goal with
         | |- context [String.eqb ?a ?b] => destruct (String.eqb a b)
         end; discriminate.
Qed.

(** X9.  [AuthValidate] calls [next()] only for a request on which no
    check recorded a failure, and whenever it answers, the status is one
    of 400, 403, 409, 412 and 417: a request with a recorded failure
    never reaches the handler and never gets a success status. *)
Theorem AuthValidate_never_admits_a_failure (EC : ERROR_CODES) (errors : list string) :
  (AuthValidate EC errors = Next <-> errors = [])
  /\ (forall status json,
        AuthValidate EC errors = Respond status json ->
        status = 400 \/ status = 403 \/ status = 409 \/ status = 412 \/ status = 417).
Proof.
  split; [apply AuthValidate_Next_iff|].
  intros status json. destruct errors as [|message rest]; simpl; [discriminate|].
  repeat match goal with
         | |- context [String.eqb ?a ?b] => destruct (String.eqb a b)
         end;
    intros H; inversion H; auto.
Qed.

(** X10.  The soft check writes into [req.body.hasAccess] the verdict of
    the hard check on the same request, whatever [hasAccess] the client
    put in the body, and changes no other part of the request. *)
Theorem soft_check_matches_hard_check (env : Env) (req : Request.t) :
  Body.hasAccess (Request.body (CheckAccessTokenMiddleware env req))
  = Some (match VerifyAccessToken env req with Ok _ => true | Throw _ => false end)
  /\ (Body.hasAccess (Request.body (CheckAccessTokenMiddleware env req)) = Some true
      <-> VerifyAccessToken env req = Ok true)
  /\ Body.userId (Request.body (CheckAccessTokenMiddleware env req))
     = Body.userId (Request.body req)
  /\ Body.phoneNumber (Request.body (CheckAccessTokenMiddleware env req))
     = Body.phoneNumber (Request.body req)
  /\ Request.authorization (CheckAccessTokenMiddleware env req) = Request.authorization req
  /\ Request.accessToken (CheckAccessTokenMiddleware env req) = Request.accessToken req
  /\ Request.params_phoneNumber (CheckAccessTokenMiddleware env req)
     = Request.params_phoneNumber req.
Proof.
  rewrite AccessTokenSpec.CheckAccessTokenMiddleware_agrees. simpl.
  split; [reflexivity|]. split; [|repeat split].
  destruct (AccessTokenSpec.VerifyAccessToken_outcomes env req) as [-> | ->];
    split; congruence.
Qed.

(** X11.  The two identity checks agree except on an account whose email
    is not verified: there [VerifyFirebaseTokenOnlyUID] passes and writes
    the user id, while [VerifyFirebaseToken] throws and leaves the
    request alone. *)
Theorem identity_checks_differ_on_unverified_email (env : Env) (value : string)
    (req : Request.t) :
  (VerifyFirebaseTokenOnlyUID env value req <> VerifyFirebaseToken env value req
   <-> truthy_string (uid (ValidateIDToken env (nth_error (split " " value) 1))) = true
       /\ email_verified (ValidateIDToken env (nth_error (split " " value) 1)) = false)
  /\ (email_verified (ValidateIDToken env (nth_error (split " " value) 1)) = false ->
      VerifyFirebaseToken env value req
      = (Throw (Error (INVALID_FIREBASE_TOKEN (codes env))), req)).
Proof.
  unfold VerifyFirebaseTokenOnlyUID, VerifyFirebaseToken.
  destruct (truthy_string (uid (ValidateIDToken env (nth_error (split " " value) 1))));
    destruct (email_verified (ValidateIDToken env (nth_error (split " " value) 1)));
    simpl; split; try (intros _; reflexivity); try discriminate;
    split; try (intros [? ?]; discriminate); try (intros H; exfalso; apply H; reflexivity).
  intros _. split; reflexivity.
Qed.

(** X12.  The token handed to the identity provider is the text between
    the first and the second space of the header value: whatever follows
    a second space is ignored, and the scheme word is not looked at. *)
Theorem bearer_token_is_second_word (env : Env) (scheme token rest : string)
    (req : Request.t) :
  includes " " scheme = false ->
  includes " " token = false ->
  nth_error (split " " (scheme +:+ " " +:+ token)) 1 = Some token
  /\ VerifyFirebaseToken env (scheme +:+ " " +:+ token +:+ " " +:+ rest) req
     = VerifyFirebaseToken env ("Bearer " +:+ token) req.
Proof.
  intros Hscheme Htoken.
  assert (H1 : split " " (scheme +:+ " " +:+ token) = [scheme; token]).
  { change (scheme +:+ " " +:+ token) with (scheme +:+ String " " token).
    rewrite (StringFacts.split_first _ _ _ Hscheme), (split_no_separator _ _ Htoken).
    reflexivity. }
  assert (H2 : split " " (scheme +:+ " " +:+ token +:+ " " +:+ rest)
               = scheme :: token :: split " " rest).
  { change (scheme +:+ " " +:+ token +:+ " " +:+ rest)
      with (scheme +:+ String " " (token +:+ String " " rest)).
    rewrite (StringFacts.split_first _ _ _ Hscheme), (StringFacts.split_first _ _ _ Htoken).
    reflexivity. }
  assert (H3 : split " " ("Bearer " +:+ token) = ["Bearer"; token]).
  { change ("Bearer " +:+ token) with ("Bearer" +:+ String " " token).
    rewrite (StringFacts.split_first " " "Bearer" token eq_refl),
      (split_no_separator _ _ Htoken).
    reflexivity. }
  split; [rewrite H1; reflexivity|].
  unfold VerifyFirebaseToken. rewrite H2, H3. reflexivity.
Qed.

Lemma bearer_token_is_second_word_witness :
  nth_error (split " " ("Bearer" +:+ " " +:+ "good")) 1 = Some "good"
  /\ VerifyFirebaseToken Examples.env ("Bearer" +:+ " " +:+ "good" +:+ " " +:+ "x y")
       Examples.rejected_bearer_request
     = VerifyFirebaseToken Examples.env ("Bearer " +:+ "good")
         Examples.rejected_bearer_request.
Proof.
  apply (bearer_token_is_second_word Examples.env "Bearer" "good" "x y"
           Examples.rejected_bearer_request ltac:(reflexivity) ltac:(reflexivity)).
Defined.



(** The validator arrays of the sources that pair the identity check
    with the access-token check are instances of [identity_then_access]. *)
Lemma validators_are_instances (env : Env) :
  CheckPhoneNumberChangeValidator env
  = Routes.identity_then_access (BaseAuthorizationHeaderValidator (codes env)) env
  /\ DeleteValidator env
     = Routes.identity_then_access (BaseAuthorizationHeaderValidator (codes env)) env.
Proof. split; reflexivity. Qed.

(** A chain that records nothing had its header validator and its
    check pass. *)
Lemma custom_with_passes (base : Request.t -> result string)
    (check : string -> Request.t -> result bool * Request.t) (req : Request.t) :
  fst (Routes.custom_with base check req) = [] ->
  exists value b,
    base req = Ok value
    /\ check value req = (Ok b, snd (Routes.custom_with base check req)).
Proof.
  unfold Routes.custom_with.
  destruct (base req) as [value|e]; [|discriminate].
  destruct (check value req) as [[b|e] req1] eqn:Hcheck; [|discriminate].
  intros _. exists value, b. split; [reflexivity | exact Hcheck].
Qed.

Lemma VerifyFirebaseToken_passes (env : Env) (value : string) (req req1 : Request.t)
    (b : bool) :
  VerifyFirebaseToken env value req = (Ok b, req1) ->
  truthy_string (uid (ValidateIDToken env (nth_error (split " " value) 1))) = true
  /\ email_verified (ValidateIDToken env (nth_error (split " " value) 1)) = true
  /\ req1 = set_userId req (uid (ValidateIDToken env (nth_error (split " " value) 1))).
Proof.
  unfold VerifyFirebaseToken.
  destruct (truthy_string (uid (ValidateIDToken env (nth_error (split " " value) 1))));
    destruct (email_verified (ValidateIDToken env (nth_error (split " " value) 1)));
    simpl; try discriminate.
  intros H. injection H as _ <-. repeat split.
Qed.

(** X14.  A route guarded by the identity check followed by the
    access-token check hands a request to its handler only if the
    identity provider vouched for the bearer token with a verified
    email, and the cookie holds an access token for that very user; the
    handler then sees the provider's user id in [req.body.userId],
    whatever the client wrote there.  This holds for every header
    validator in front of the two checks. *)
Theorem identity_then_access_guard (base : Request.t -> result string)
    (EC : ERROR_CODES) (env : Env) (req req' : Request.t) :
  gateway EC (Routes.identity_then_access base env) req = (Next, req') ->
  exists value,
    base req = Ok value
    /\ truthy_string (uid (ValidateIDToken env (nth_error (split " " value) 1))) = true
    /\ email_verified (ValidateIDToken env (nth_error (split " " value) 1)) = true
    /\ req' = set_userId req (uid (ValidateIDToken env (nth_error (split " " value) 1)))
    /\ VerifyAccessToken env req' = Ok true.
Proof.
  intros H. unfold gateway in H.
  destruct (run_chains (Routes.identity_then_access base env) req)
    as [errors final] eqn:Hrun.
  injection H as Hnext <-.
  apply AuthValidate_Next_iff in Hnext. subst errors.
  unfold Routes.identity_then_access in Hrun.
  rewrite !GatewaySpec.run_chains_cons, GatewaySpec.run_chains_nil in Hrun.
  cbn [fst snd] in Hrun. rewrite app_nil_r in Hrun.
  injection Hrun as Herrors Hfinal.
  apply app_eq_nil in Herrors as [Hfirst Hsecond].
  apply custom_with_passes in Hfirst as (value & b & Hbase & Hcheck).
  apply custom_with_passes in Hsecond as (value2 & b2 & _ & Hcheck2).
  apply VerifyFirebaseToken_passes in Hcheck as (Huid & Hemail & Hreq).
  exists value. split; [exact Hbase|]. split; [exact Huid|]. split; [exact Hemail|].
  injection Hcheck2 as Hverdict Hsame.
  rewrite <- Hfinal, <- Hsame, Hreq. split; [reflexivity|].
  rewrite Hreq in Hverdict.
  destruct (AccessTokenSpec.VerifyAccessToken_outcomes env
              (set_userId req (uid (ValidateIDToken env (nth_error (split " " value) 1)))))
    as [Hok|Hbad]; [exact Hok | congruence].
Qed.

Lemma identity_then_access_guard_witness :
  exists value,
    BaseAuthorizationHeaderValidator spec_ERROR_CODES Routes.arriving_request = Ok value
    /\ truthy_string
         (uid (ValidateIDToken Examples.env (nth_error (split " " value) 1))) = true
    /\ email_verified
         (ValidateIDToken Examples.env (nth_error (split " " value) 1)) = true
    /\ set_userId Routes.arriving_request (Some "u1")
       = set_userId Routes.arriving_request
           (uid (ValidateIDToken Examples.env (nth_error (split " " value) 1)))
    /\ VerifyAccessToken Examples.env (set_userId Routes.arriving_request (Some "u1"))
       = Ok true.
Proof.
  apply (identity_then_access_guard
           (BaseAuthorizationHeaderValidator spec_ERROR_CODES) spec_ERROR_CODES
           Examples.env Routes.arriving_request
           (set_userId Routes.arriving_request (Some "u1")) ltac:(reflexivity)).
Defined.

End ChecksSpec.

(** ** Route handlers *)

Module RoutesSpec.
Import Middleware Routes.

(** X15.  [GET /basicInfo] shows of a phone number only its first two
    characters and the characters at positions 8 to 11: the six
    characters in between are replaced by the mask and everything from
    position 12 on is dropped, whatever those characters are. *)
Theorem blur_masks_the_middle (a mid b tail : string) :
  String.length a = 2%nat ->
  String.length mid = 6%nat ->
  String.length b = 4%nat ->
  blur (a +:+ mid +:+ b +:+ tail) = a +:+ "(***) ***-" +:+ b.
Proof.
  intros Ha Hmid Hb.
  destruct a as [|a1 [|a2 [|? ?]]]; try discriminate Ha.
  destruct mid as [|m1 [|m2 [|m3 [|m4 [|m5 [|m6 [|? ?]]]]]]]; try discriminate Hmid.
  destruct b as [|b1 [|b2 [|b3 [|b4 [|? ?]]]]]; try discriminate Hb.
  destruct tail; reflexivity.
Qed.

Lemma blur_masks_the_middle_witness :
  blur ("+1" +:+ "555555" +:+ "0100" +:+ "") = "+1" +:+ "(***) ***-" +:+ "0100".
Proof.
  apply (blur_masks_the_middle "+1" "555555" "0100" ""
           ltac:(reflexivity) ltac:(reflexivity) ltac:(reflexivity)).
Defined.

(** X16.  [POST /storeAccessToken] has three outcomes.  It answers 406
    exactly when [successJWT] does not verify under the key, 401 exactly
    when it verifies but names another user than [req.body.userId], and
    otherwise sets the [accessToken] cookie, HttpOnly, Secure and
    SameSite=None, holding a token signed for that user with the
    access-token marker and an expiry of 6000. *)
Theorem storeAccessToken_outcomes (sign : AccessData.t -> Z -> string) (env : Env)
    (successJWT : option string) (req : Request.t) :
  (storeAccessToken sign env successJWT req = NotStored 406 "Success JWT Invalid."
   <-> jwt env successJWT = SignatureInvalid \/ jwt env successJWT = TokenExpired)
  /\ (storeAccessToken sign env successJWT req = NotStored 401 "Users do not match."
      <-> exists payload,
            jwt env successJWT = Verified payload
            /\ AccessData.userId payload <> Body.userId (Request.body req))
  /\ (forall c message,
        storeAccessToken sign env successJWT req = Stored c message <->
        (exists payload,
            jwt env successJWT = Verified payload
            /\ AccessData.userId payload = Body.userId (Request.body req))
        /\ message = "Successfully stored access token."
        /\ c = {| cookie_name := "accessToken";
                  cookie_value :=
                    sign {| AccessData.userId := Body.userId (Request.body req);
                            AccessData.isAccessToken := Some true |} 6000;
                  httpOnly := true; secure := true; sameSite := "None";
                  maxAge := "100000000" |}).
Proof.
  unfold storeAccessToken, jwt_verify.
  destruct (jwt env successJWT) as [| |payload]; simpl.
  - split; [split; auto|]. split.
    + split; [discriminate | intros (? & ? & _); discriminate].
    + intros c message. split; [discriminate | intros ((? & ? & _) & _); discriminate].
  - split; [split; auto|]. split.
    + split; [discriminate | intros (? & ? & _); discriminate].
    + intros c message. split; [discriminate | intros ((? & ? & _) & _); discriminate].
  - destruct (strict_eq (AccessData.userId payload) (Body.userId (Request.body req)))
      eqn:Heq; simpl.
    + apply JsFacts.strict_eq_spec in Heq.
      split; [split; [discriminate | intros [?|?]; discriminate]|]. split.
      * split; [discriminate|]. intros (p & Hp & Hne). injection Hp as <-. contradiction.
      * intros c message. rewrite Heq. split.
        -- intros H. injection H as <- <-.
           split; [exists payload; split; [reflexivity | exact Heq]|].
           split; reflexivity.
        -- intros (_ & -> & ->). reflexivity.
    + apply JsFacts.strict_eq_false in Heq.
      split; [split; [discriminate | intros [?|?]; discriminate]|]. split.
      * split; [intros _; exists payload; split; [reflexivity | exact Heq] | reflexivity].
      * intros c message. split; [discriminate|].
        intros ((p & Hp & Hsame) & _). injection Hp as <-. contradiction.
Qed.

(** X17.  Issue then verify: when a token signed for the user with the
    marker verifies under the key to that payload, the cookie that
    [POST /storeAccessToken] sets makes the next request of the same
    user pass [VerifyAccessToken], and the soft check marks it
    [hasAccess] true. *)
Theorem stored_cookie_verifies (sign : AccessData.t -> Z -> string) (env : Env)
    (successJWT : option string) (req : Request.t) (c : cookie) (message : string) :
  jwt env (Some (sign {| AccessData.userId := Body.userId (Request.body req);
                         AccessData.isAccessToken := Some true |} 6000))
  = Verified {| AccessData.userId := Body.userId (Request.body req);
                AccessData.isAccessToken := Some true |} ->
  storeAccessToken sign env successJWT req = Stored c message ->
  VerifyAccessToken env (with_cookie req c) = Ok true
  /\ Body.hasAccess (Request.body (CheckAccessTokenMiddleware env (with_cookie req c)))
     = Some true.
Proof.
  intros Hsigned Hstored.
  assert (Hvalue : cookie_value c
                   = sign {| AccessData.userId := Body.userId (Request.body req);
                             AccessData.isAccessToken := Some true |} 6000).
  { unfold storeAccessToken, jwt_verify in Hstored.
    destruct (jwt env successJWT) as [| |payload]; simpl in Hstored; try discriminate.
    destruct (strict_eq (AccessData.userId payload) (Body.userId (Request.body req)))
      eqn:Heq; simpl in Hstored; [|discriminate].
    apply JsFacts.strict_eq_spec in Heq. rewrite Heq in Hstored.
    injection Hstored as <- _. reflexivity. }
  assert (Hok : VerifyAccessToken env (with_cookie req c) = Ok true).
  { apply AccessTokenSpec.VerifyAccessToken_Ok_iff.
    exists {| AccessData.userId := Body.userId (Request.body req);
              AccessData.isAccessToken := Some true |}.
    simpl. rewrite Hvalue. split; [exact Hsigned | split; reflexivity]. }
  split; [exact Hok|].
  rewrite AccessTokenSpec.CheckAccessTokenMiddleware_agrees, Hok. reflexivity.
Qed.

Lemma stored_cookie_verifies_witness :
  VerifyAccessToken Examples.env
    (with_cookie identified_request
       {| cookie_name := "accessToken"; cookie_value := "access-u1";
          httpOnly := true; secure := true; sameSite := "None";
          maxAge := "100000000" |}) = Ok true
  /\ Body.hasAccess
       (Request.body
          (CheckAccessTokenMiddleware Examples.env
             (with_cookie identified_request
                {| cookie_name := "accessToken"; cookie_value := "access-u1";
                   httpOnly := true; secure := true; sameSite := "None";
                   maxAge := "100000000" |}))) = Some true.
Proof.
  apply (stored_cookie_verifies example_sign Examples.env (Some "access-u1")
           identified_request _ "Successfully stored access token."
           ltac:(reflexivity) ltac:(reflexivity)).
Defined.

(** X18.  A request that passes [VerifyAccessToken] can use its own
    access token as [successJWT]: [POST /storeAccessToken] accepts it and
    sets a fresh cookie, so a live access token renews itself. *)
Theorem access_token_renews_itself (sign : AccessData.t -> Z -> string) (env : Env)
    (req : Request.t) :
  VerifyAccessToken env req = Ok true ->
  exists c,
    storeAccessToken sign env (Request.accessToken req) req
    = Stored c "Successfully stored access token."
    /\ cookie_value c
       = sign {| AccessData.userId := Body.userId (Request.body req);
                 AccessData.isAccessToken := Some true |} 6000.
Proof.
  intros Hok. apply AccessTokenSpec.VerifyAccessToken_Ok_iff in Hok
    as (accessData & Hjwt & Huser & _).
  unfold storeAccessToken, jwt_verify. rewrite Hjwt. simpl.
  rewrite (proj2 (JsFacts.strict_eq_spec _ _) Huser). simpl.
  rewrite Huser. eexists. split; reflexivity.
Qed.

Lemma access_token_renews_itself_witness :
  exists c,
    storeAccessToken example_sign Examples.env (Some "access-u1")
      (with_cookie identified_request
         {| cookie_name := "accessToken"; cookie_value := "access-u1";
            httpOnly := true; secure := true; sameSite := "None";
            maxAge := "100000000" |})
    = Stored c "Successfully stored access token."
    /\ cookie_value c = "access-u1".
Proof.
  apply (access_token_renews_itself example_sign Examples.env
           (with_cookie identified_request
              {| cookie_name := "accessToken"; cookie_value := "access-u1";
                 httpOnly := true; secure := true; sameSite := "None";
                 maxAge := "100000000" |})
           ltac:(reflexivity)).
Defined.

(** X19.  [GET /basicInfo] does not reject a request for lacking a valid
    access token.  After the soft check, for a user id that has an
    account, the handler answers 200 with the masked phone number, the
    capabilities resolved from the account and its device lists, and
    [hasAccess] set to the verdict of [VerifyAccessToken]; for a user id
    without an account it answers 401. *)
Theorem basicInfo_degrades_gracefully (env : Env) (req : Request.t) (userId : string) :
  Body.userId (Request.body req) = Some userId ->
  userId <> "" ->
  basicInfo env (CheckAccessTokenMiddleware env req)
  = match Users env !! userId with
    | Some account =>
        Sent200
          {| bi_userId := Some userId;
             bi_username := User.username account;
             bi_name := User.name account;
             bi_phoneNumber := blur (User.phoneNumber account);
             bi_phoneVerified := User.phoneVerified account;
             bi_availableAuthMethods :=
               Resolver.basicInfo_methods (User.phoneVerified account)
                 (Z.of_nat (length (getAllDevices env userId)))
                 (Z.of_nat (length (getAllMobileDevices env userId)));
             bi_hasAccess :=
               Some (match VerifyAccessToken env req with
                     | Ok _ => true
                     | Throw _ => false
                     end) |}
    | None => SentError (Some 401) "User could not be retrieved from User ID"
    end.
Proof.
  intros Hid Hne.
  rewrite AccessTokenSpec.CheckAccessTokenMiddleware_agrees.
  unfold basicInfo, GetUserFromUID_of, UsersDb.GetUserFromUID. simpl. rewrite Hid.
  destruct (String.eqb_spec userId ""); [contradiction|].
  destruct (Users env !! userId) as [account|]; reflexivity.
Qed.

Lemma basicInfo_degrades_gracefully_witness :
  basicInfo Examples.env (CheckAccessTokenMiddleware Examples.env identified_request)
  = Sent200
      {| bi_userId := Some "u1";
         bi_username := "ann";
         bi_name := "Ann";
         bi_phoneNumber := "+1(***) ***-0100";
         bi_phoneVerified := true;
         bi_availableAuthMethods :=
           {| Resolver.SMS := true; Resolver.QR := true; Resolver.SSID := true;
              Resolver.Geolocation := Some true; Resolver.Smart := Some true |};
         bi_hasAccess := Some false |}.
Proof.
  apply (basicInfo_degrades_gracefully Examples.env identified_request "u1"
           ltac:(reflexivity) ltac:(discriminate)).
Defined.

End RoutesSpec.
